(** * Always Online connector of the Caterpillar proxy: a shallow embedding

    The development follows [alwaysonline.py]: the helper functions
    [generate_id], [fetch_cache_from_elasticsearch],
    [fetch_cache_from_internet_archive], [push_cache_to_elasticsearch],
    [fetch_origin_server], [query_to_serp], [query_to_llm] and the method
    [AlwaysOnline.connect] are translated into functions of a state and
    exception monad over a world that holds the document store, the pending
    client input and the trace of interactions with the outside. *)

From Stdlib Require Import ZArith NArith Ascii String.
From stdpp Require Import base list gmap pretty.

Local Open Scope N_scope.
Local Set Warnings "-register-all".

(** ** Python values *)

(** A Python [str] is a sequence of Unicode code points, a [bytes] object a
    sequence of octets. *)
Definition str := list N.
Definition bytes := list N.

(** Literals of the source, written as Rocq strings. *)
Definition py (s : string) : str := map N_of_ascii (list_ascii_of_string s).

(** [str(n)] on an integer, as used by f-strings. *)
Definition str_of_int (z : Z) : str := py (pretty z).

(** ** The regular expressions of [re.sub] used by the source *)

Module Re.

(** The part of the Unicode character database that [\w] and [\s] consult
    outside ASCII; inside ASCII the classes are fixed below. *)
Record unicode_db := {
  uni_alnum : N -> bool;
  uni_space : N -> bool
}.

Definition ascii_alnum (c : N) : bool :=
  ((48 <=? c) && (c <=? 57)) || ((65 <=? c) && (c <=? 90))
  || ((97 <=? c) && (c <=? 122)).

Definition ascii_space (c : N) : bool :=
  ((9 <=? c) && (c <=? 13)) || ((28 <=? c) && (c <=? 32)).

(** [str.isalnum] and [str.isspace] on one code point. *)
Definition is_alnum (db : unicode_db) (c : N) : bool :=
  if c <? 128 then ascii_alnum c else uni_alnum db c.

Definition is_space (db : unicode_db) (c : N) : bool :=
  if c <? 128 then ascii_space c else uni_space db c.

Inductive cclass := ClsWord | ClsSpace.

(** [\w] is alphanumeric or underscore; [\s] is whitespace. *)
Definition in_class (db : unicode_db) (c : N) (k : cclass) : bool :=
  match k with
  | ClsWord => is_alnum db c || (c =? 95)
  | ClsSpace => is_space db c
  end.

Inductive pattern :=
| Bol                              (* ^ (no MULTILINE flag) *)
| Lit (c : N)                      (* a literal character *)
| Opt (p : pattern)                (* p? , greedy *)
| NotIn (ks : list cclass)         (* [^...] over classes *)
| Seq (p q : pattern)
| Alt (p q : pattern).

(** Backtracking matcher: [matches db p pos s k] tries [p] on the text [s]
    that starts at offset [pos] of the subject and hands the offset and the
    text after the match to the continuation [k]; alternatives are tried
    from left to right and [?] tries the longer match first. *)
Fixpoint matches (db : unicode_db) (p : pattern) (pos : nat) (s : str)
    (k : nat -> str -> option nat) : option nat :=
  match p with
  | Bol => if Nat.eqb pos 0 then k pos s else None
  | Lit c =>
      match s with
      | c' :: s' => if c =? c' then k (S pos) s' else None
      | [] => None
      end
  | Opt q =>
      match matches db q pos s k with
      | Some e => Some e
      | None => k pos s
      end
  | NotIn ks =>
      match s with
      | c :: s' => if existsb (in_class db c) ks then None else k (S pos) s'
      | [] => None
      end
  | Seq q r => matches db q pos s (fun pos' s' => matches db r pos' s' k)
  | Alt q r =>
      match matches db q pos s k with
      | Some e => Some e
      | None => matches db r pos s k
      end
  end.

(** The end offset of the match of [p] that starts at offset [pos]. *)
Definition match_at (db : unicode_db) (p : pattern) (pos : nat) (s : str)
  : option nat :=
  matches db p pos s (fun e _ => Some e).

(** [re.sub]'s scan, left to right.  [skip] counts the characters of the
    current match that are still to be dropped.  At a position outside a
    match the pattern is tried: a non-empty match emits [repl] and drops the
    matched text, an empty match emits [repl] and copies one character, no
    match copies one character. *)
Fixpoint sub_scan (db : unicode_db) (p : pattern) (repl : str)
    (pos skip : nat) (s : str) : str :=
  match skip with
  | S n =>
      match s with
      | _ :: s' => sub_scan db p repl (S pos) n s'
      | [] => []
      end
  | O =>
      match match_at db p pos s with
      | Some e =>
          match e - pos, s with
          | S n, _ :: s' => repl ++ sub_scan db p repl (S pos) n s'
          | _, c :: s' => repl ++ c :: sub_scan db p repl (S pos) 0 s'
          | _, [] => repl
          end%nat
      | None =>
          match s with
          | c :: s' => c :: sub_scan db p repl (S pos) 0 s'
          | [] => []
          end
      end
  end.

Definition sub (db : unicode_db) (p : pattern) (repl s : str) : str :=
  sub_scan db p repl 0 0 s.

(** A literal word as a pattern. *)
Fixpoint lits (w : str) : pattern -> pattern :=
  match w with
  | [] => fun p => p
  | c :: w' => fun p => Seq (Lit c) (lits w' p)
  end.

End Re.

(** The pattern of [query_to_serp], [^https?:\/\/|[^\w\s]], by its two
    alternatives. *)
Definition scheme_pattern : Re.pattern :=
  Re.Seq Re.Bol
    (Re.lits (py "http")
       (Re.Seq (Re.Opt (Re.Lit 115)) (Re.lits (py ":/") (Re.Lit 47)))).

Definition special_pattern : Re.pattern := Re.NotIn [Re.ClsWord; Re.ClsSpace].

Definition serp_pattern : Re.pattern := Re.Alt scheme_pattern special_pattern.

(** [q = re.sub(r'^https?:\/\/|[^\w\s]', ' ', url)] *)
Definition serp_query (db : Re.unicode_db) (url : str) : str :=
  Re.sub db serp_pattern (py " ") url.

(** ** The UTF-8 codec of [generate_id] *)

(** One code point under [str.encode("utf-8")]; surrogates are refused. *)
Definition utf8_char (c : N) : option bytes :=
  if c <? 128 then Some [c]
  else if c <? 2048 then Some [192 + c / 64; 128 + c mod 64]
  else if c <? 65536 then
    if (55296 <=? c) && (c <=? 57343) then None
    else Some [224 + c / 4096; 128 + (c / 64) mod 64; 128 + c mod 64]
  else if c <? 1114112 then
    Some [240 + c / 262144; 128 + (c / 4096) mod 64;
          128 + (c / 64) mod 64; 128 + c mod 64]
  else None.

Fixpoint utf8_encode (s : str) : option bytes :=
  match s with
  | [] => Some []
  | c :: s' =>
      match utf8_char c, utf8_encode s' with
      | Some b, Some bs => Some (b ++ bs)
      | _, _ => None
      end
  end.

(** ** Substring test: [needle in hay] *)

Fixpoint starts_with (needle hay : str) : bool :=
  match needle, hay with
  | [], _ => true
  | c :: n', d :: h' => (c =? d) && starts_with n' h'
  | _ :: _, [] => false
  end.

Fixpoint contains (needle hay : str) : bool :=
  starts_with needle hay
  || match hay with
     | [] => false
     | _ :: h' => contains needle h'
     end.

(** ** Exceptions, JSON values, HTTP messages *)

(** The exceptions that can reach the code; all of them derive from
    [Exception]. *)
Inductive Exn :=
| NotFoundError                   (* elasticsearch.NotFoundError *)
| TransportError (detail : str)   (* connection refused, reset, timeout, ... *)
| UnicodeError                    (* str.encode / bytes.decode *)
| JSONDecodeError                 (* response.json() *)
| KeyError (key : str)
| IndexError
| TypeError
| AttributeError
| InvalidURL.                     (* requests refuses the url *)

(** A parsed JSON document.  Of a number only its truth value is
    observed.  An object lists its members; a key is looked up from the
    front. *)
Inductive Json :=
| JNull
| JBool (b : bool)
| JNum (nonzero : bool)
| JStr (s : str)
| JArr (items : list Json)
| JObj (members : list (str * Json)).

(** Python truthiness of a JSON value. *)
Definition truthy (j : Json) : bool :=
  match j with
  | JNull => false
  | JBool b => b
  | JNum nz => nz
  | JStr s => negb (bool_decide (s = []))
  | JArr l => match l with [] => false | _ => true end
  | JObj m => match m with [] => false | _ => true end
  end.

Fixpoint assoc (key : str) (m : list (str * Json)) : option Json :=
  match m with
  | [] => None
  | (k, v) :: m' => if bool_decide (k = key) then Some v else assoc key m'
  end.

(** A [requests.Response]: [resp_json] is what [response.json()] returns,
    [None] when it raises. *)
Record Response := {
  status_code : Z;
  content : bytes;
  resp_json : option Json
}.

Inductive Request :=
| HttpGet (url : str)
| HttpPost (url : str) (headers : list (str * str)) (body : Json).

(** ** The document store, the events, the world *)

(** The clock reading stored with a document; the code never inspects it. *)
Definition Timestamp := Z.

(** The body that [push_cache_to_elasticsearch] indexes. *)
Record Document := {
  doc_url : str;
  doc_content : str;
  doc_timestamp : Timestamp
}.

(** The functions of the module whose calls the trace records. *)
Inductive Fn :=
| FnFetchCache | FnFetchArchive | FnFetchOrigin | FnQuerySerp | FnQueryLlm
| FnPushCache.

#[global] Instance Fn_eq_dec : EqDecision Fn.
Proof. solve_decision. Defined.

Inductive Event :=
| EvCall (f : Fn) (args : list (list N))    (* entry into a function *)
| EvLogInfo (msg : str)
| EvLogDoc (d : Document)                   (* logger.info(result["_source"]) *)
| EvLogError (msg : str)
| EvEsGet (index id : str)
| EvEsIndex (index id : str) (body : Document)
| EvRequest (r : Request)
| EvConnSend (data : bytes)
| EvConnSetTimeout
| EvConnRecv
| EvSockCreate
| EvSockWrap (server_hostname : str)
| EvSockConnect (host : bytes) (port : Z)
| EvSockSend (data : bytes).

(** The configuration read by [decouple.config] and the library functions the
    module relies on. *)
Record Runtime := {
  encode : str -> option bytes;     (* s.encode(client_encoding) *)
  decode : bytes -> option str;     (* b.decode(client_encoding) *)
  es_index : str;
  librey_url : str;
  chatgpt_apikey : str;
  sha256_hexdigest : bytes -> str;  (* hashlib.sha256(b).hexdigest() *)
  exn_str : Exn -> str;             (* str(e) *)
  unicode : Re.unicode_db
}.

(** The behaviour of the outside, indexed by the number of interactions that
    took place before. *)
Record Env := {
  env_http : nat -> Request -> Exn + Response;   (* requests.get / post *)
  env_es_fault : nat -> option Exn;              (* the store is unusable *)
  env_now : nat -> Timestamp;                    (* datetime.now(UTC) *)
  env_conn_fault : nat -> option Exn;            (* the client connection *)
  env_sock_fault : nat -> option Exn             (* the upstream socket *)
}.

Record World := {
  w_tick : nat;
  w_docs : gmap (list N) Document;      (* the index, keyed by document id *)
  w_conn_in : list (Exn + bytes);       (* what conn.recv will deliver *)
  w_trace : list Event
}.

(** ** The monad: state that survives an exception *)

Inductive Result (A : Type) :=
| Ok (a : A)
| Raise (e : Exn).
Arguments Ok {A} a.
Arguments Raise {A} e.

Definition M (A : Type) : Type := World -> Result A * World.

Definition ret {A} (a : A) : M A := fun w => (Ok a, w).

Definition raise {A} (e : Exn) : M A := fun w => (Raise e, w).

Definition bind {A B} (m : M A) (k : A -> M B) : M B :=
  fun w =>
    match m w with
    | (Ok a, w') => k a w'
    | (Raise e, w') => (Raise e, w')
    end.

(** [try: m except Exception as e: h e] *)
Definition try_except {A} (m : M A) (h : Exn -> M A) : M A :=
  fun w =>
    match m w with
    | (Ok a, w') => (Ok a, w')
    | (Raise e, w') => h e w'
    end.

Declare Scope py_scope.
Delimit Scope py_scope with py.
Notation "x <- m ;; k" := (bind m (fun x => k))
  (at level 100, m at next level, right associativity) : py_scope.
Notation "m ;; k" := (bind m (fun _ => k))
  (at level 100, right associativity) : py_scope.
Local Open Scope py_scope.

Definition emit (e : Event) : M unit :=
  fun w =>
    (Ok tt, {| w_tick := w_tick w; w_docs := w_docs w;
               w_conn_in := w_conn_in w; w_trace := w_trace w ++ [e] |}).

(** One interaction with the outside: returns its index. *)
Definition interact : M nat :=
  fun w =>
    (Ok (w_tick w), {| w_tick := S (w_tick w); w_docs := w_docs w;
                       w_conn_in := w_conn_in w; w_trace := w_trace w |}).

(** The world as it is now. *)
Definition get_world : M World := fun w => (Ok w, w).

(** The store takes a document under an id, replacing what was there. *)
Definition store_doc (url_id : str) (body : Document) : M unit :=
  fun w =>
    (Ok tt, {| w_tick := w_tick w; w_docs := <[url_id := body]> (w_docs w);
               w_conn_in := w_conn_in w; w_trace := w_trace w |}).

Definition lift_opt {A} (o : option A) (e : Exn) : M A :=
  match o with
  | Some a => ret a
  | None => raise e
  end.

Definition fault (o : option Exn) : M unit :=
  match o with
  | Some e => raise e
  | None => ret tt
  end.

(** ** The code *)

Section AlwaysOnline.

Variable rt : Runtime.
Variable env : Env.

(** *** Library calls *)

Definition py_encode (s : str) : M bytes := lift_opt (encode rt s) UnicodeError.
Definition py_decode (b : bytes) : M str := lift_opt (decode rt b) UnicodeError.

(** [requests.get(url)] *)
Definition requests_get (url : str) : M Response :=
  emit (EvRequest (HttpGet url)) ;;
  n <- interact ;;
  match env_http env n (HttpGet url) with
  | inl e => raise e
  | inr r => ret r
  end.

(** [requests.get(v)] on a value taken from a JSON document: anything but
    a string is refused before the network is touched. *)
Definition requests_get_value (v : Json) : M Response :=
  match v with
  | JStr url => requests_get url
  | _ => raise InvalidURL
  end.

(** [requests.post(url, json=body, headers=headers)] *)
Definition requests_post (url : str) (body : Json) (headers : list (str * str))
  : M Response :=
  emit (EvRequest (HttpPost url headers body)) ;;
  n <- interact ;;
  match env_http env n (HttpPost url headers body) with
  | inl e => raise e
  | inr r => ret r
  end.

(** [response.json()] *)
Definition response_json (r : Response) : M Json :=
  lift_opt (resp_json r) JSONDecodeError.

(** [d.get(key, default)] *)
Definition py_get (d : Json) (key : str) (default : Json) : M Json :=
  match d with
  | JObj m => ret (from_option id default (assoc key m))
  | _ => raise AttributeError
  end.

(** [d[key]] with a string key *)
Definition py_getitem (d : Json) (key : str) : M Json :=
  match d with
  | JObj m => lift_opt (assoc key m) (KeyError key)
  | _ => raise TypeError
  end.

(** [d[0]] *)
Definition py_getitem0 (d : Json) : M Json :=
  match d with
  | JArr (x :: _) => ret x
  | JArr [] => raise IndexError
  | JStr (c :: _) => ret (JStr [c])
  | JStr [] => raise IndexError
  | JObj _ => raise (KeyError (py "0"))
  | _ => raise TypeError
  end.

(** [v.encode(client_encoding)] on a JSON value *)
Definition py_encode_value (v : Json) : M bytes :=
  match v with
  | JStr s => py_encode s
  | _ => raise AttributeError
  end.

(** [es.get(index=es_index, id=url_id)] *)
Definition es_get (url_id : str) : M Document :=
  emit (EvEsGet (es_index rt) url_id) ;;
  n <- interact ;;
  fault (env_es_fault env n) ;;
  w <- get_world ;;
  lift_opt (w_docs w !! url_id) NotFoundError.

(** [es.index(index=es_index, id=url_id, body=body)] *)
Definition es_index_doc (url_id : str) (body : Document) : M unit :=
  emit (EvEsIndex (es_index rt) url_id body) ;;
  n <- interact ;;
  fault (env_es_fault env n) ;;
  store_doc url_id body.

(** [datetime.now(UTC).timestamp()] *)
Definition now : M Timestamp :=
  w <- get_world ;;
  ret (env_now env (w_tick w)).

(** [conn.send(data)] *)
Definition conn_send (data : bytes) : M unit :=
  emit (EvConnSend data) ;;
  n <- interact ;;
  fault (env_conn_fault env n).

(** [conn.recv(buffer_size)]: the next pending chunk; with nothing pending
    the read times out. *)
Definition conn_recv : M bytes :=
  emit EvConnRecv ;;
  fun w =>
    match w_conn_in w with
    | [] => (Raise (TransportError (py "timed out")), w)
    | r :: rest =>
        let w' := {| w_tick := w_tick w; w_docs := w_docs w;
                     w_conn_in := rest; w_trace := w_trace w |} in
        match r with
        | inl e => (Raise e, w')
        | inr chunk => (Ok chunk, w')
        end
    end.

(** Operations on the upstream socket. *)
Definition sock_op (e : Event) : M unit :=
  emit e ;;
  n <- interact ;;
  fault (env_sock_fault env n).

(** *** [generate_id] *)

Definition generate_id (url : str) : M str :=
  b <- lift_opt (utf8_encode url) UnicodeError ;;
  ret (sha256_hexdigest rt b).

(** *** [fetch_cache_from_internet_archive] *)

Definition fetch_cache_from_internet_archive (url : str) : M (Z * bytes) :=
  emit (EvCall FnFetchArchive [url]) ;;
  let wayback_api_url := py "http://archive.org/wayback/available?url=" ++ url in
  response <- requests_get wayback_api_url ;;
  if (status_code response =? 200)%Z then
    try_except
      (data <- response_json response ;;
       archived_snapshots <- py_get data (py "archived_snapshots") (JObj []) ;;
       closest_snapshot <- py_get archived_snapshots (py "closest") (JObj []) ;;
       if truthy closest_snapshot then
         archived_url <- py_get closest_snapshot (py "url") (JStr []) ;;
         if truthy archived_url then
           archived_page_response <- requests_get_value archived_url ;;
           let status := status_code archived_page_response in
           if (status =? 200)%Z
           then ret (status, content archived_page_response)
           else ret (status, [])
         else ret (404%Z, [])
       else ret (404%Z, []))
      (fun _ => ret (502%Z, []))
  else ret (status_code response, []).

(** *** [fetch_cache_from_elasticsearch] *)

Definition fetch_cache_from_elasticsearch (url : str) : M (Z * bytes) :=
  emit (EvCall FnFetchCache [url]) ;;
  url_id <- generate_id url ;;
  try_except
    (result <- es_get url_id ;;
     emit (EvLogDoc result) ;;
     c <- py_encode (doc_content result) ;;
     ret (200%Z, c))
    (fun e =>
       match e with
       | NotFoundError => ret (404%Z, [])
       | _ =>
           emit (EvLogError (py "Error fetching from Elasticsearch: " ++ exn_str rt e)) ;;
           ret (502%Z, [])
       end).

(** *** [push_cache_to_elasticsearch] *)

Definition push_cache_to_elasticsearch (url : str) (data : bytes) : M unit :=
  emit (EvCall FnPushCache [url; data]) ;;
  url_id <- generate_id url ;;
  timestamp <- now ;;
  try_except
    (text <- py_decode data ;;
     es_index_doc url_id
       {| doc_url := url; doc_content := text; doc_timestamp := timestamp |})
    (fun e =>
       emit (EvLogError (py "Error caching to Elasticsearch: " ++ exn_str rt e))).

(** *** [fetch_origin_server] *)

Definition fetch_origin_server (url : str) : M (Z * bytes) :=
  emit (EvCall FnFetchOrigin [url]) ;;
  try_except
    (response <- requests_get url ;;
     ret (status_code response, content response))
    (fun e =>
       b <- py_encode (exn_str rt e) ;;
       ret (502%Z, b)).

(** *** [query_to_serp] *)

Definition query_to_serp (url : str) : M (Z * bytes) :=
  emit (EvCall FnQuerySerp [url]) ;;
  try_except
    (let q := serp_query (unicode rt) url in
     let url := librey_url rt ++ py "/api.php?q=" ++ q in
     response <- requests_get url ;;
     if negb (status_code response =? 200)%Z then
       b <- py_encode (py "SERP API server returned status code "
                         ++ str_of_int (status_code response)) ;;
       ret (status_code response, b)
     else ret (200%Z, content response))
    (fun e =>
       b <- py_encode (py "Error querying SERP API: " ++ exn_str rt e) ;;
       ret (502%Z, b)).

(** *** [query_to_llm] *)

Definition llm_prompt (content_str : str) : str :=
  py "The following content was scraped from a search engine. Based on this data, "
  ++ py "please infer the most likely information the user was originally searching for "
  ++ py "and explain it as accurately as possible:" ++ [10; 10]
  ++ content_str.

Definition query_to_llm (content : bytes) : M (Z * bytes) :=
  emit (EvCall FnQueryLlm [content]) ;;
  try_except
    (let headers :=
       [(py "Authorization", py "Bearer " ++ chatgpt_apikey rt);
        (py "Content-Type", py "application/json")] in
     content_str <- py_decode content ;;
     let prompt := llm_prompt content_str in
     let data :=
       JObj [(py "model", JStr (py "gpt-4"));
             (py "messages",
              JArr [JObj [(py "role", JStr (py "system"));
                          (py "content", JStr (py "You are a helpful assistant."))];
                    JObj [(py "role", JStr (py "user"));
                          (py "content", JStr prompt)]])] in
     response <- requests_post (py "https://api.openai.com/v1/chat/completions")
                   data headers ;;
     if (status_code response =? 200)%Z then
       response_data <- response_json response ;;
       choices <- py_getitem response_data (py "choices") ;;
       choice <- py_getitem0 choices ;;
       message <- py_getitem choice (py "message") ;;
       llm_content <- py_getitem message (py "content") ;;
       b <- py_encode_value llm_content ;;
       ret (200%Z, b)
     else
       b <- py_encode (py "ChatGPT API returned status code "
                         ++ str_of_int (status_code response)) ;;
       ret (status_code response, b))
    (fun e =>
       b <- py_encode (py "Error querying ChatGPT API: " ++ exn_str rt e) ;;
       ret (502%Z, b)).

(** *** [AlwaysOnline.connect] *)

(** [self.buffer_size] *)
Definition buffer_size : N := 8192.

(** The [while True] loop of [sendall].  Every iteration that goes on has
    taken one pending chunk from the connection, so the loop is run with one
    unit of fuel more than there are pending chunks.  The result says
    whether the loop ended by itself. *)
Fixpoint relay_loop (fuel : nat) : M bool :=
  match fuel with
  | O => ret false
  | S n =>
      go_on <- try_except
                 (chunk <- conn_recv ;;
                  if bool_decide (chunk = []) then ret false
                  else (sock_op (EvSockSend chunk) ;; ret true))
                 (fun _ => ret false) ;;
      if go_on : bool then relay_loop n else ret true
  end.

(** The inner function [sendall(_sock, _conn, _data)]. *)
Definition sendall (_data : bytes) : M unit :=
  sock_op (EvSockSend _data) ;;
  if N.of_nat (length _data) <? buffer_size then ret tt
  else
    emit EvConnSetTimeout ;;
    w <- get_world ;;
    relay_loop (S (length (w_conn_in w))) ;;
    ret tt.

(** One [if not connected:] block over the locals [connected] and
    [buffered]. *)
Definition if_not_connected (st : bool * bytes)
    (body : bytes -> M (bool * bytes)) : M (bool * bytes) :=
  if negb st.1 then body st.2 else ret st.

(** Lines 212-213: the absolute url of the request.  The port is the
    number the proxy parsed from the request line. *)
Definition absolute_url (target_url target_scheme target_webserver : str)
    (port : Z) : str :=
  if negb (contains (py "://") target_url)
  then target_scheme ++ py "://" ++ target_webserver ++ py ":"
       ++ str_of_int port ++ target_url
  else target_url.

(** Lines 215-247: the branch [if method == b"GET"], over the locals
    [connected] and [buffered] as they are at line 186 and 189. *)
Definition connect_get (target_url : str) : M bool :=
  let connected := false in
  let buffered : bytes := [] in
  st <- if_not_connected (connected, buffered) (fun buffered =>
          emit (EvLogInfo (py "Trying get data from Elasticsearch...")) ;;
          r <- fetch_cache_from_elasticsearch target_url ;;
          let '(status_code, content) := r in
          if (status_code =? 200)%Z
          then ret (true, buffered ++ content)
          else ret (false, buffered)) ;;
  st <- if_not_connected st (fun buffered =>
          emit (EvLogInfo (py "Trying get data from Wayback Machine...")) ;;
          r <- fetch_cache_from_internet_archive target_url ;;
          let '(status_code, content) := r in
          if (status_code =? 200)%Z
          then ret (true, buffered ++ content)
          else ret (false, buffered)) ;;
  st <- if_not_connected st (fun buffered =>
          r <- fetch_origin_server target_url ;;
          let '(status_code, content) := r in
          if (status_code =? 200)%Z then
            let buffered := buffered ++ content in
            push_cache_to_elasticsearch target_url buffered ;;
            ret (true, buffered)
          else ret (false, buffered)) ;;
  st <- if_not_connected st (fun buffered =>
          r <- query_to_serp target_url ;;
          let '(status_code, content) := r in
          if (status_code =? 200)%Z then
            l <- query_to_llm content ;;
            let '(llm_status_code, llm_content) := l in
            let buffered :=
              if (status_code =? 200)%Z
              then buffered ++ llm_content
              else buffered ++ content in
            ret (true, buffered)
          else ret (false, buffered)) ;;
  conn_send st.2 ;;
  ret st.1.

(** Lines 248-265: the branch of every other method; [connected] is still
    what line 186 made it. *)
Definition connect_relay (data webserver : bytes) (port : Z) (is_ssl : bool)
  : M bool :=
  let connected := false in
  sock_op EvSockCreate ;;
  (if is_ssl then
     server_hostname <- py_decode webserver ;;
     sock_op (EvSockWrap server_hostname) ;;
     sock_op (EvSockConnect webserver port) ;;
     sendall data
   else
     sock_op (EvSockConnect webserver port) ;;
     sendall data) ;;
  ret connected.

Definition connect (data webserver : bytes) (port : Z)
    (scheme method url : bytes) : M bool :=
  emit (EvLogInfo (py "[*] Connecting... Connecting...")) ;;
  let is_ssl := bool_decide (scheme ∈ [py "https"; py "tls"; py "ssl"]) in
  target_url <- py_decode url ;;
  target_scheme <- py_decode scheme ;;
  target_webserver <- py_decode webserver ;;
  let target_url :=
    absolute_url target_url target_scheme target_webserver port in
  if bool_decide (method = py "GET")
  then connect_get target_url
  else connect_relay data webserver port is_ssl.

End AlwaysOnline.

(** ** Reading a trace *)

(** The calls of the module's functions recorded in a list of events. *)
Definition calls (evs : list Event) : list (Fn * list (list N)) :=
  omap (fun e => match e with EvCall f a => Some (f, a) | _ => None end) evs.

(** The calls of one function. *)
Definition calls_to (f : Fn) (evs : list Event) : list (list (list N)) :=
  omap (fun c => if decide (c.1 = f) then Some c.2 else None) (calls evs).

(** The sources of the chain, in the order of their functions. *)
Definition sources : list Fn :=
  [FnFetchCache; FnFetchArchive; FnFetchOrigin; FnQuerySerp].

(** The source attempts recorded in a list of events. *)
Definition attempts (evs : list Event) : list Fn :=
  filter (fun f => f ∈ sources) (calls evs).*1.

(** The bodies written to the client connection. *)
Definition sent (evs : list Event) : list bytes :=
  omap (fun e => match e with EvConnSend b => Some b | _ => None end) evs.

(** The events that a run from [w] to [w'] added. *)
Definition new_events (w w' : World) : list Event :=
  drop (length (w_trace w)) (w_trace w').

(** The world after [logger.info(msg)]. *)
Definition info (msg : string) (w : World) : World :=
  (emit (EvLogInfo (py msg)) w).2.

(** The world in which [connect] has logged its first line. *)
Abbreviation started := (info "[*] Connecting... Connecting...").

(** ** Frames: what a computation leaves alone *)

(** Whatever the outcome of [m], the projection of the world moves along
    [R]. *)
Definition stable {X : Type} (proj : World -> X) (R : relation X) {A}
    (m : M A) : Prop :=
  forall w, R (proj w) (proj (m w).2).

(** The events that the properties below look at: calls and writes to the
    client. *)
Definition is_observed (e : Event) : bool :=
  match e with
  | EvCall _ _ | EvConnSend _ => true
  | _ => false
  end.

(** The trace grows by events that are neither. *)
Definition silent (old new : list Event) : Prop :=
  exists evs, new = old ++ evs /\ calls evs = [] /\ sent evs = [].

Abbreviation quiet := (stable w_trace silent).
Abbreviation keeps := (stable w_docs (@eq (gmap (list N) Document))).

(** ** The chain as a linear state machine *)

(** Where a run of the [GET] branch ends: at the exception of a source, at
    the first source that answers 200, or after the last source. *)
Inductive path :=
| CacheRaised (e : Exn)
| CacheHit (body : bytes)
| ArchiveRaised (e : Exn)
| ArchiveHit (body : bytes)
| OriginRaised (e : Exn)
| OriginHit (body : bytes)
| SerpRaised (e : Exn)
| LlmRaised (results : bytes) (e : Exn)
| SearchHit (results : bytes) (llm_status_code : Z) (llm_content : bytes)
| Exhausted.

Section Chain.

Variable rt : Runtime.
Variable env : Env.
Variable target : str.

(** A source that returned a status other than 200, from world to world. *)
Definition cache_miss (w w1 : World) : Prop :=
  exists s c,
    fetch_cache_from_elasticsearch rt env target
      (info "Trying get data from Elasticsearch..." w) = (Ok (s, c), w1)
    /\ s <> 200%Z.

Definition archive_miss (w1 w2 : World) : Prop :=
  exists s c,
    fetch_cache_from_internet_archive env target
      (info "Trying get data from Wayback Machine..." w1) = (Ok (s, c), w2)
    /\ s <> 200%Z.

Definition origin_miss (w2 w3 : World) : Prop :=
  exists s c,
    fetch_origin_server rt env target w2 = (Ok (s, c), w3) /\ s <> 200%Z.

Definition serp_miss (w3 w4 : World) : Prop :=
  exists s c,
    query_to_serp rt env target w3 = (Ok (s, c), w4) /\ s <> 200%Z.

(** [chain_path w p w'] : started in [w], the sources behaved as [p] says
    and left the world [w'], in which the branch raises or writes the
    body to the client. *)
Inductive chain_path (w : World) : path -> World -> Prop :=
| path_cache_raised e w1 :
    fetch_cache_from_elasticsearch rt env target
      (info "Trying get data from Elasticsearch..." w) = (Raise e, w1) ->
    chain_path w (CacheRaised e) w1
| path_cache_hit c w1 :
    fetch_cache_from_elasticsearch rt env target
      (info "Trying get data from Elasticsearch..." w) = (Ok (200%Z, c), w1) ->
    chain_path w (CacheHit c) w1
| path_archive_raised w1 e w2 :
    cache_miss w w1 ->
    fetch_cache_from_internet_archive env target
      (info "Trying get data from Wayback Machine..." w1) = (Raise e, w2) ->
    chain_path w (ArchiveRaised e) w2
| path_archive_hit w1 c w2 :
    cache_miss w w1 ->
    fetch_cache_from_internet_archive env target
      (info "Trying get data from Wayback Machine..." w1) = (Ok (200%Z, c), w2) ->
    chain_path w (ArchiveHit c) w2
| path_origin_raised w1 w2 e w3 :
    cache_miss w w1 -> archive_miss w1 w2 ->
    fetch_origin_server rt env target w2 = (Raise e, w3) ->
    chain_path w (OriginRaised e) w3
| path_origin_hit w1 w2 c w3 w4 :
    cache_miss w w1 -> archive_miss w1 w2 ->
    fetch_origin_server rt env target w2 = (Ok (200%Z, c), w3) ->
    push_cache_to_elasticsearch rt env target c w3 = (Ok tt, w4) ->
    chain_path w (OriginHit c) w4
| path_serp_raised w1 w2 w3 e w4 :
    cache_miss w w1 -> archive_miss w1 w2 -> origin_miss w2 w3 ->
    query_to_serp rt env target w3 = (Raise e, w4) ->
    chain_path w (SerpRaised e) w4
| path_llm_raised w1 w2 w3 c w4 e w5 :
    cache_miss w w1 -> archive_miss w1 w2 -> origin_miss w2 w3 ->
    query_to_serp rt env target w3 = (Ok (200%Z, c), w4) ->
    query_to_llm rt env c w4 = (Raise e, w5) ->
    chain_path w (LlmRaised c e) w5
| path_search_hit w1 w2 w3 c w4 ls lc w5 :
    cache_miss w w1 -> archive_miss w1 w2 -> origin_miss w2 w3 ->
    query_to_serp rt env target w3 = (Ok (200%Z, c), w4) ->
    query_to_llm rt env c w4 = (Ok (ls, lc), w5) ->
    chain_path w (SearchHit c ls lc) w5
| path_exhausted w1 w2 w3 w4 :
    cache_miss w w1 -> archive_miss w1 w2 -> origin_miss w2 w3 ->
    serp_miss w3 w4 ->
    chain_path w Exhausted w4.

(** How the branch ends after a path: lines 247 and 267. *)
Definition finish (p : path) : M bool :=
  match p with
  | CacheRaised e | ArchiveRaised e | OriginRaised e | SerpRaised e
  | LlmRaised _ e => raise e
  | CacheHit c | ArchiveHit c | OriginHit c => conn_send env c ;; ret true
  | SearchHit _ _ lc => conn_send env lc ;; ret true
  | Exhausted => conn_send env [] ;; ret false
  end.

(** The calls a path makes. *)
Definition path_calls (p : path) : list (Fn * list (list N)) :=
  match p with
  | CacheRaised _ | CacheHit _ => [(FnFetchCache, [target])]
  | ArchiveRaised _ | ArchiveHit _ =>
      [(FnFetchCache, [target]); (FnFetchArchive, [target])]
  | OriginRaised _ =>
      [(FnFetchCache, [target]); (FnFetchArchive, [target]);
       (FnFetchOrigin, [target])]
  | OriginHit c =>
      [(FnFetchCache, [target]); (FnFetchArchive, [target]);
       (FnFetchOrigin, [target]); (FnPushCache, [target; c])]
  | SerpRaised _ | Exhausted =>
      [(FnFetchCache, [target]); (FnFetchArchive, [target]);
       (FnFetchOrigin, [target]); (FnQuerySerp, [target])]
  | LlmRaised c _ | SearchHit c _ _ =>
      [(FnFetchCache, [target]); (FnFetchArchive, [target]);
       (FnFetchOrigin, [target]); (FnQuerySerp, [target]);
       (FnQueryLlm, [c])]
  end.

(** What a path writes to the client. *)
Definition path_sent (p : path) : list bytes :=
  match p with
  | CacheRaised _ | ArchiveRaised _ | OriginRaised _ | SerpRaised _
  | LlmRaised _ _ => []
  | CacheHit c | ArchiveHit c | OriginHit c => [c]
  | SearchHit _ _ lc => [lc]
  | Exhausted => [[]]
  end.

End Chain.

(** ** The sanitizer in the words of the specification *)

(** The length of a scheme prefix [http://] or [https://]. *)
Definition scheme_len (url : str) : option nat :=
  if starts_with (py "https://") url then Some 8%nat
  else if starts_with (py "http://") url then Some 7%nat
  else None.

(** Strip the scheme prefix [http://] or [https://]. *)
Definition strip_scheme (url : str) : str :=
  match scheme_len url with
  | Some n => drop n url
  | None => url
  end.

(** Replace every character that is neither alphanumeric nor whitespace with
    a space. *)
Definition spec_sanitize (db : Re.unicode_db) (url : str) : str :=
  map (fun c => if Re.is_alnum db c || Re.is_space db c then c else 32)
      (strip_scheme url).

(** What the code does to one character after the scheme prefix. *)
Definition blank_special (db : Re.unicode_db) (c : N) : N :=
  if Re.in_class db c Re.ClsWord || Re.in_class db c Re.ClsSpace then c else 32.

(** ** Concrete runtimes and environments *)

Module Demo.

Definition latin1 (s : list N) : option (list N) :=
  if forallb (fun c => c <? 256) s then Some s else None.

Definition ascii_only : Re.unicode_db :=
  {| Re.uni_alnum := fun _ => false; Re.uni_space := fun _ => false |}.

Definition show_exn (e : Exn) : str :=
  match e with
  | NotFoundError => py "NotFoundError"
  | TransportError d => d
  | UnicodeError => py "codec error"
  | JSONDecodeError => py "Expecting value"
  | KeyError k => k
  | IndexError => py "list index out of range"
  | TypeError => py "type error"
  | AttributeError => py "attribute error"
  | InvalidURL => py "Invalid URL"
  end.

(** The digest is replaced by the octets themselves. *)
Definition rt : Runtime :=
  {| encode := latin1; decode := latin1;
     es_index := py "alwaysonline";
     librey_url := py "https://serp.catswords.net";
     chatgpt_apikey := py "sk-demo";
     sha256_hexdigest := fun b => b;
     exn_str := show_exn;
     unicode := ascii_only |}.

Definition reply (status : Z) (body : string) : Exn + Response :=
  inr {| status_code := status; content := py body; resp_json := None |}.

Definition refused : Exn + Response :=
  inl (TransportError (py "Connection refused")).

Definition request_url (r : Request) : str :=
  match r with
  | HttpGet u => u
  | HttpPost u _ _ => u
  end.

(** A network that answers by host: the archive, the search service, the
    summarizer, and everything else as the origin. *)
Definition network (archive serp llm origin : Exn + Response) : Env :=
  {| env_http := fun _ r =>
       let u := request_url r in
       if starts_with (py "http://archive.org/") u then archive
       else if starts_with (py "https://serp.catswords.net/") u then serp
       else if starts_with (py "https://api.openai.com/") u then llm
       else origin;
     env_es_fault := fun _ => None;
     env_now := fun n => Z.of_nat n;
     env_conn_fault := fun _ => None;
     env_sock_fault := fun _ => None |}.

(** The same network with the document store out of reach. *)
Definition store_down (e : Env) : Env :=
  {| env_http := env_http e;
     env_es_fault := fun _ => Some (TransportError (py "Connection refused"));
     env_now := env_now e;
     env_conn_fault := env_conn_fault e;
     env_sock_fault := env_sock_fault e |}.

Definition w0 : World :=
  {| w_tick := 0; w_docs := ∅; w_conn_in := []; w_trace := [] |}.

(** The request [GET /page] for host [example.com], port 80. *)
Definition host : bytes := py "example.com".
Definition scheme : bytes := py "http".
Definition page : bytes := py "/page".
Definition target : str := absolute_url page scheme host 80.

(** Only the origin answers. *)
Definition origin_up : Env :=
  network (reply 404 "") (reply 500 "") (reply 500 "") (reply 200 "<html>").

(** Nothing answers with 200. *)
Definition all_down : Env :=
  network (reply 404 "") (reply 503 "") (reply 500 "") (reply 500 "").

(** The search answers, the summarizer does not. *)
Definition summarizer_down : Env :=
  network (reply 404 "") (reply 200 "S") (reply 502 "") (reply 500 "").

(** The availability lookup cannot be reached. *)
Definition archive_unreachable : Env :=
  network refused (reply 200 "S") (reply 200 "") (reply 200 "<html>").

(** The availability service answers 503. *)
Definition archive_busy : Env :=
  network (reply 503 "busy") (reply 500 "") (reply 500 "") (reply 500 "").

(** A store that holds a page for the target. *)
Definition w_cached : World :=
  {| w_tick := 0;
     w_docs :=
       {[ sha256_hexdigest rt (default [] (utf8_encode target)) :=
            {| doc_url := target; doc_content := py "cached";
               doc_timestamp := 0%Z |} ]};
     w_conn_in := [];
     w_trace := [] |}.

End Demo.

(** ** More readings of a trace *)

(** The HTTP requests recorded in a list of events. *)
Definition requests (evs : list Event) : list Request :=
  omap (fun e => match e with EvRequest r => Some r | _ => None end) evs.

(** The error logs recorded in a list of events. *)
Definition error_logs (evs : list Event) : list str :=
  omap (fun e => match e with EvLogError m => Some m | _ => None end) evs.

(** The data written to the upstream socket. *)
Definition sock_sends (evs : list Event) : list bytes :=
  omap (fun e => match e with EvSockSend b => Some b | _ => None end) evs.

(** The trace grows by events that all satisfy [P]. *)
Definition grows_by (P : Event -> bool) (old new : list Event) : Prop :=
  exists evs, new = old ++ evs /\ forallb P evs = true.

(** What the relay of the other methods may leave in the trace: the first
    log line, the upstream socket, reads from the client. *)
Definition relay_may_emit (e : Event) : bool :=
  match e with
  | EvLogInfo _ | EvConnSetTimeout | EvConnRecv | EvSockCreate | EvSockWrap _
  | EvSockConnect _ _ | EvSockSend _ => true
  | _ => false
  end.

(** What the [GET] branch may leave in the trace: logs, calls, the store,
    HTTP requests, writes to the client. *)
Definition chain_may_emit (e : Event) : bool :=
  match e with
  | EvLogInfo _ | EvCall _ _ | EvLogDoc _ | EvLogError _ | EvEsGet _ _
  | EvEsIndex _ _ _ | EvRequest _ | EvConnSend _ => true
  | _ => false
  end.

(** The chunks that the loop of [sendall] forwards: those pending on the
    client connection up to the first empty one or the first error. *)
Fixpoint forwarded (pending : list (Exn + bytes)) : list bytes :=
  match pending with
  | inr chunk :: rest =>
      if bool_decide (chunk = []) then [] else chunk :: forwarded rest
  | _ => []
  end.

(** A code point that [str.encode("utf-8")] refuses. *)
Definition unencodable (c : N) : bool :=
  ((55296 <=? c) && (c <=? 57343)) || (1114112 <=? c).

(** The request of [query_to_llm] for the decoded search results. *)
Definition llm_request (rt : Runtime) (content_str : str) : Request :=
  HttpPost (py "https://api.openai.com/v1/chat/completions")
    [(py "Authorization", py "Bearer " ++ chatgpt_apikey rt);
     (py "Content-Type", py "application/json")]
    (JObj [(py "model", JStr (py "gpt-4"));
           (py "messages",
            JArr [JObj [(py "role", JStr (py "system"));
                        (py "content", JStr (py "You are a helpful assistant."))];
                  JObj [(py "role", JStr (py "user"));
                        (py "content", JStr (llm_prompt content_str))]])]).

(** [response_data['choices'][0]['message']['content']] when every step is
    there and the last one is a string. *)
Definition completion_text (j : Json) : option str :=
  match j with
  | JObj m =>
      match assoc (py "choices") m with
      | Some choices =>
          match
            match choices with
            | JArr (x :: _) => Some x
            | JStr (c :: _) => Some (JStr [c])
            | _ => None
            end
          with
          | Some (JObj mc) =>
              match assoc (py "message") mc with
              | Some (JObj mm) =>
                  match assoc (py "content") mm with
                  | Some (JStr t) => Some t
                  | _ => None
                  end
              | _ => None
              end
          | _ => None
          end
      | None => None
      end
  | _ => None
  end.

(** The url of the availability lookup. *)
Definition wayback_api_url (url : str) : str :=
  py "http://archive.org/wayback/available?url=" ++ url.

(** ** More concrete runtimes and environments *)

Module Samples.

(** A client encoding that takes every string and every byte sequence. *)
Definition lenient : Runtime :=
  {| encode := Some; decode := Some;
     es_index := py "alwaysonline";
     librey_url := py "https://serp.catswords.net";
     chatgpt_apikey := py "sk-demo";
     sha256_hexdigest := fun b => b;
     exn_str := Demo.show_exn;
     unicode := Demo.ascii_only |}.

(** The ASCII codec: code points and bytes below 128. *)
Definition ascii_codec (s : list N) : option (list N) :=
  if forallb (fun c => c <? 128) s then Some s else None.

(** A client encoding that refuses what is not ASCII. *)
Definition strict : Runtime :=
  {| encode := ascii_codec; decode := ascii_codec;
     es_index := py "alwaysonline";
     librey_url := py "https://serp.catswords.net";
     chatgpt_apikey := py "sk-demo";
     sha256_hexdigest := fun b => b;
     exn_str := Demo.show_exn;
     unicode := Demo.ascii_only |}.

(** A JSON string literal. *)
Definition quoted (s : str) : bytes := [34] ++ s ++ [34].

Definition snapshot_url : str :=
  py "http://web.archive.org/web/2024/http://example.com:80/page".

(** The availability service knows a snapshot. *)
Definition available : Response :=
  {| status_code := 200;
     content :=
       py "{" ++ quoted (py "archived_snapshots") ++ py ": {"
       ++ quoted (py "closest") ++ py ": {" ++ quoted (py "url") ++ py ": "
       ++ quoted snapshot_url ++ py "}}}";
     resp_json :=
       Some (JObj [(py "archived_snapshots",
                    JObj [(py "closest",
                           JObj [(py "url", JStr snapshot_url)])])]) |}.

(** The availability service knows none. *)
Definition unavailable : Response :=
  {| status_code := 200;
     content := py "{" ++ quoted (py "archived_snapshots") ++ py ": {}}";
     resp_json := Some (JObj [(py "archived_snapshots", JObj [])]) |}.

(** The availability service answers 200 with a page that is no JSON. *)
Definition garbled : Response :=
  {| status_code := 200; content := py "<html>busy</html>";
     resp_json := None |}.

(** Networks in which every host but the archive answers the same page. *)
Definition archived : Env :=
  Demo.network (inr available) (Demo.reply 500 "") (Demo.reply 500 "")
    (Demo.reply 200 "<old>").

Definition unarchived : Env :=
  Demo.network (inr unavailable) (Demo.reply 500 "") (Demo.reply 500 "")
    (Demo.reply 200 "<html>").

Definition archive_garbled : Env :=
  Demo.network (inr garbled) (Demo.reply 500 "") (Demo.reply 500 "")
    (Demo.reply 200 "<html>").

(** The summarizer answers with a completion. *)
Definition completion : Response :=
  {| status_code := 200;
     content :=
       py "{" ++ quoted (py "choices") ++ py ": [{" ++ quoted (py "message")
       ++ py ": {" ++ quoted (py "content") ++ py ": "
       ++ quoted (py "the user looked for S") ++ py "}}]}";
     resp_json :=
       Some (JObj [(py "choices",
                    JArr [JObj [(py "message",
                                 JObj [(py "content",
                                        JStr (py "the user looked for S"))])]])]) |}.

Definition summarizer_up : Env :=
  Demo.network (Demo.reply 404 "") (Demo.reply 200 "S") (inr completion)
    (Demo.reply 500 "").

(** A request that fills the buffer, and a client that sends two more
    chunks and then closes. *)
Definition big_request : bytes := replicate (N.to_nat 8192) 65.

Definition w_pending : World :=
  {| w_tick := 0; w_docs := ∅;
     w_conn_in := [inr (py "more"); inr (py "and more"); inr []; inr (py "late")];
     w_trace := [] |}.

(** Bytes that do not decode under [strict]. *)
Definition undecodable : bytes := py "caf" ++ [233].

(** A url with a lone surrogate. *)
Definition surrogate_url : str := py "http://example.com/" ++ [55296].

End Samples.

(** ** The serial connector, [serial.py] *)

Module SerialPlugin.

(** The exceptions that can reach [Serial.connect]. *)
Inductive Exn :=
| SerialException (detail : str)     (* and its subclasses *)
| UnicodeDecodeError
| UnboundLocalError (name : str)
| OtherError (detail : str).         (* OSError of the client socket, ... *)

(** [except serial.SerialException] *)
Definition is_serial (e : Exn) : bool :=
  match e with
  | SerialException _ => true
  | _ => false
  end.

Inductive Event :=
| EvOpen (port_path : str) (baudrate : Z)   (* serial.Serial(...) *)
| EvWrite (payload : bytes)
| EvFlush
| EvSleep
| EvInWaiting
| EvRead (size : N)
| EvClose
| EvSend (data : bytes)                     (* conn.send *)
| EvDebug (msg : str)
| EvError (msg : str).

(** The locals of [connect] that the handlers read. *)
Record Frame := {
  connected : bool;
  ser : bool;                  (* [ser] is a port object, not [None] *)
  port_path : option str       (* [None]: not yet bound *)
}.

Record World := {
  w_tick : nat;
  w_is_open : bool;            (* [ser.is_open] *)
  w_frame : Frame;
  w_trace : list Event
}.

(** The configuration and the outside.  [bytes_repr] is the text that an
    f-string makes of a bytes object. *)
Record Env := {
  decode : bytes -> option str;             (* b.decode(client_encoding) *)
  bytes_repr : bytes -> str;
  open_fault : nat -> option Exn;           (* serial.Serial(...) *)
  io_fault : nat -> option Exn;             (* write, flush, in_waiting, read *)
  in_waiting : nat -> N;
  incoming : nat -> bytes;                  (* what the port has buffered *)
  send_fault : nat -> option Exn            (* conn.send *)
}.

Inductive Outcome (A : Type) :=
| Return (a : A)
| Raised (e : Exn).
Arguments Return {A} a.
Arguments Raised {A} e.

Definition M (A : Type) : Type := World -> Outcome A * World.

Definition ret {A} (a : A) : M A := fun w => (Return a, w).

Definition raise {A} (e : Exn) : M A := fun w => (Raised e, w).

Definition bind {A B} (m : M A) (k : A -> M B) : M B :=
  fun w =>
    match m w with
    | (Return a, w') => k a w'
    | (Raised e, w') => (Raised e, w')
    end.

(** [try: m except serial.SerialException as e: h e] *)
Definition try_except_serial {A} (m : M A) (h : Exn -> M A) : M A :=
  fun w =>
    match m w with
    | (Return a, w') => (Return a, w')
    | (Raised e, w') => if is_serial e then h e w' else (Raised e, w')
    end.

(** [try: m finally: f]: an exception of [f] replaces the outcome of [m]. *)
Definition try_finally {A} (m : M A) (f : M unit) : M A :=
  fun w =>
    match m w with
    | (r, w') =>
        match f w' with
        | (Return _, w'') => (r, w'')
        | (Raised e, w'') => (Raised e, w'')
        end
    end.

Declare Scope serial_scope.
Delimit Scope serial_scope with serial.
Notation "x <- m ;; k" := (bind m (fun x => k))
  (at level 100, m at next level, right associativity) : serial_scope.
Notation "m ;; k" := (bind m (fun _ => k))
  (at level 100, right associativity) : serial_scope.
Local Open Scope serial_scope.

Definition emit (e : Event) : M unit :=
  fun w =>
    (Return tt, {| w_tick := w_tick w; w_is_open := w_is_open w;
                   w_frame := w_frame w; w_trace := w_trace w ++ [e] |}).

Definition interact : M nat :=
  fun w =>
    (Return (w_tick w), {| w_tick := S (w_tick w); w_is_open := w_is_open w;
                           w_frame := w_frame w; w_trace := w_trace w |}).

Definition get_frame : M Frame := fun w => (Return (w_frame w), w).

Definition set_frame (f : Frame) : M unit :=
  fun w =>
    (Return tt, {| w_tick := w_tick w; w_is_open := w_is_open w;
                   w_frame := f; w_trace := w_trace w |}).

Definition get_is_open : M bool := fun w => (Return (w_is_open w), w).

Definition set_is_open (b : bool) : M unit :=
  fun w =>
    (Return tt, {| w_tick := w_tick w; w_is_open := b;
                   w_frame := w_frame w; w_trace := w_trace w |}).

Definition fault (o : option Exn) : M unit :=
  match o with
  | Some e => raise e
  | None => ret tt
  end.

(** [data.find(sub)]: the least index at which [sub] occurs, or -1. *)
Fixpoint find_from (sub data : bytes) (i : Z) : Z :=
  if starts_with sub data then i
  else match data with
       | [] => (-1)%Z
       | _ :: rest => find_from sub rest (i + 1)%Z
       end.

Definition find (sub data : bytes) : Z := find_from sub data 0.

(** [data[start:]] *)
Definition slice_from (start : Z) (data : bytes) : bytes :=
  if (start <? 0)%Z
  then drop (Z.to_nat (Z.of_nat (length data) + start)) data
  else drop (Z.to_nat start) data.

(** [s.replace("/", "")] *)
Definition remove_slashes (s : str) : str :=
  filter (fun c => c <> 47) s.

(** The separator [b"\r\n\r\n"]. *)
Definition blank_line : bytes := [13; 10; 13; 10].

Section Connect.

Variable env : Env.

(** [serial.Serial(port_path, baudrate=9600, timeout=0)]: the port is open
    when the constructor returns. *)
Definition serial_open (path : str) : M unit :=
  emit (EvOpen path 9600) ;;
  n <- interact ;;
  fault (open_fault env n) ;;
  set_is_open true.

Definition serial_io (e : Event) : M nat :=
  emit e ;;
  n <- interact ;;
  fault (io_fault env n) ;;
  ret n.

(** [ser.read(size)] *)
Definition serial_read (size : N) : M bytes :=
  n <- serial_io (EvRead size) ;;
  ret (take (N.to_nat size) (incoming env n)).

(** [ser.in_waiting] *)
Definition serial_in_waiting : M N :=
  n <- serial_io EvInWaiting ;;
  ret (in_waiting env n).

(** [ser.close()], which is taken not to fail. *)
Definition serial_close : M unit :=
  emit EvClose ;;
  set_is_open false.

Definition conn_send (data : bytes) : M unit :=
  emit (EvSend data) ;;
  n <- interact ;;
  fault (send_fault env n).

(** Reading the local [port_path]. *)
Definition read_port_path : M str :=
  f <- get_frame ;;
  match port_path f with
  | Some p => ret p
  | None => raise (UnboundLocalError (py "port_path"))
  end.

(** [Serial.connect]; of the arguments only [data], [port] and [url] are
    used. *)
Definition connect (data : bytes) (port : Z) (url : bytes) : M bool :=
  set_frame {| connected := false; ser := false; port_path := None |} ;;
  try_finally
    (try_except_serial
       (text <- match decode env url with
                | Some t => ret t
                | None => raise UnicodeDecodeError
                end ;;
        f <- get_frame ;;
        set_frame {| connected := connected f; ser := ser f;
                     port_path := Some (remove_slashes text) |} ;;
        f <- get_frame ;;
        (if negb (ser f) then
           p <- read_port_path ;;
           serial_open p ;;
           set_frame {| connected := connected f; ser := true;
                        port_path := port_path f |} ;;
           f <- get_frame ;;
           set_frame {| connected := true; ser := ser f;
                        port_path := port_path f |}
         else ret tt) ;;
        p <- read_port_path ;;
        emit (EvDebug (py "Connected to " ++ p ++ py " at 9600 baudrate")) ;;
        let pos := find blank_line data in
        serial_io (EvWrite (slice_from (pos + 4) data)) ;;
        serial_io EvFlush ;;
        emit EvSleep ;;
        size <- serial_in_waiting ;;
        out_but <- serial_read size ;;
        conn_send out_but ;;
        p <- read_port_path ;;
        emit (EvDebug (py "Data sent to " ++ p ++ py ": " ++ bytes_repr env data)))
       (fun e =>
          emit (EvError (py "Failed to connect to " ++ str_of_int port))))
    (f <- get_frame ;;
     is_open <- get_is_open ;;
     (if ser f && is_open then serial_close else ret tt) ;;
     p <- read_port_path ;;
     emit (EvDebug (py "Serial port " ++ p ++ py " closed"))) ;;
  f <- get_frame ;;
  ret (connected f).

End Connect.

(** The payloads written to the port, the paths opened, the data sent to
    the client. *)
Definition written (evs : list Event) : list bytes :=
  omap (fun e => match e with EvWrite b => Some b | _ => None end) evs.

Definition opened (evs : list Event) : list str :=
  omap (fun e => match e with EvOpen p _ => Some p | _ => None end) evs.

Definition client_data (evs : list Event) : list bytes :=
  omap (fun e => match e with EvSend b => Some b | _ => None end) evs.

(** The events that a run added. *)
Definition added (w w' : World) : list Event :=
  drop (length (w_trace w)) (w_trace w').

(** A world in which no port is open. *)
Definition idle (w : World) : Prop := w_is_open w = false.

(** A sample environment: the port echoes [pong]. *)
Definition echo (opens : option Exn) (io : nat -> option Exn) : Env :=
  {| decode := Samples.ascii_codec; bytes_repr := fun b => b;
     open_fault := fun _ => opens; io_fault := io;
     in_waiting := fun _ => 4; incoming := fun _ => py "pong";
     send_fault := fun _ => None |}.

(** A request with headers and a body, and one without a blank line. *)
Definition request : bytes :=
  py "POST /COM3 HTTP/1.1" ++ [13; 10] ++ py "Host: serial" ++ blank_line
  ++ py "ping".

Definition w0 : World :=
  {| w_tick := 0; w_is_open := false;
     w_frame := {| connected := false; ser := false; port_path := None |};
     w_trace := [] |}.

End SerialPlugin.

(** ** The container plugin, [container.py] *)

Module ContainerPlugin.

Inductive Exn :=
| KeyError (key : str)
| TypeError
| DockerError (detail : str).       (* NotFound, APIError, ... *)

(** What a method does to a container it has looked up. *)
Inductive Op := Start | Stop | Pause | Unpause | Restart | Remove.

Inductive Event :=
| EvInfo (msg : str)
| EvSend (data : bytes)                            (* conn.send *)
| EvGet (name : Json)                              (* client.containers.get *)
| EvOp (op : Op)                                   (* container.start() ... *)
| EvRun (image devices name volumes environment : Json) (detach : bool)
| EvLogs.                                          (* container.logs() *)

Record World := {
  w_tick : nat;
  w_trace : list Event
}.

(** The docker daemon and the client socket, by the number of calls made
    before. *)
Record Env := {
  docker_fault : nat -> option Exn;
  send_fault : nat -> option Exn
}.

Inductive Outcome (A : Type) :=
| Return (a : A)
| Raised (e : Exn).
Arguments Return {A} a.
Arguments Raised {A} e.

Definition M (A : Type) : Type := World -> Outcome A * World.

Definition ret {A} (a : A) : M A := fun w => (Return a, w).

Definition raise {A} (e : Exn) : M A := fun w => (Raised e, w).

Definition bind {A B} (m : M A) (k : A -> M B) : M B :=
  fun w =>
    match m w with
    | (Return a, w') => k a w'
    | (Raised e, w') => (Raised e, w')
    end.

Declare Scope container_scope.
Delimit Scope container_scope with container.
Notation "x <- m ;; k" := (bind m (fun x => k))
  (at level 100, m at next level, right associativity) : container_scope.
Notation "m ;; k" := (bind m (fun _ => k))
  (at level 100, right associativity) : container_scope.
Local Open Scope container_scope.

Definition emit (e : Event) : M unit :=
  fun w => (Return tt, {| w_tick := w_tick w; w_trace := w_trace w ++ [e] |}).

Definition interact : M nat :=
  fun w => (Return (w_tick w), {| w_tick := S (w_tick w); w_trace := w_trace w |}).

Definition fault (o : option Exn) : M unit :=
  match o with
  | Some e => raise e
  | None => ret tt
  end.

(** [params[key]]: the parameters are what the JSON-RPC request carried. *)
Definition subscript (params : Json) (key : str) : M Json :=
  match params with
  | JObj m =>
      match assoc key m with
      | Some v => ret v
      | None => raise (KeyError key)
      end
  | _ => raise TypeError
  end.

Section Methods.

Variable env : Env.

(** A call of the docker client. *)
Definition docker (e : Event) : M unit :=
  emit e ;;
  n <- interact ;;
  fault (docker_fault env n).

Definition dispatch : M unit :=
  emit (EvInfo (py "[*] Greeting! dispatch")) ;;
  emit (EvSend (py "Greeting! dispatch")) ;;
  n <- interact ;;
  fault (send_fault env n).

Definition container_create (params : Json) : M bool :=
  emit (EvInfo (py "[*] Created")) ;;
  ret true.

Definition container_start (params : Json) : M bool :=
  name <- subscript params (py "name") ;;
  docker (EvGet name) ;;
  docker (EvOp Start) ;;
  emit (EvInfo (py "[*] Started")) ;;
  ret true.

Definition container_run (params : Json) : M bool :=
  devices <- subscript params (py "devices") ;;
  image <- subscript params (py "image") ;;
  devices <- subscript params (py "devices") ;;
  name <- subscript params (py "name") ;;
  environment <- subscript params (py "environment") ;;
  volumes <- subscript params (py "volumes") ;;
  docker (EvRun image devices name volumes environment true) ;;
  docker EvLogs ;;
  emit (EvInfo (py "[*] Running...")) ;;
  ret true.

Definition container_stop (params : Json) : M bool :=
  name <- subscript params (py "name") ;;
  docker (EvGet name) ;;
  docker (EvOp Stop) ;;
  emit (EvInfo (py "[*] Stopped")) ;;
  ret true.

Definition container_pause (params : Json) : M bool :=
  name <- subscript params (py "name") ;;
  docker (EvGet name) ;;
  docker (EvOp Pause) ;;
  emit (EvInfo (py "[*] Paused")) ;;
  ret true.

Definition container_unpause (params : Json) : M bool :=
  name <- subscript params (py "name") ;;
  docker (EvGet name) ;;
  docker (EvOp Unpause) ;;
  emit (EvInfo (py "[*] Unpaused")) ;;
  ret true.

Definition container_restart (params : Json) : M bool :=
  name <- subscript params (py "name") ;;
  docker (EvGet name) ;;
  docker (EvOp Restart) ;;
  emit (EvInfo (py "[*] Restarted")) ;;
  ret true.

Definition container_kill (params : Json) : M bool :=
  emit (EvInfo (py "[*] Killed")) ;;
  ret true.

Definition container_remove (params : Json) : M bool :=
  name <- subscript params (py "name") ;;
  docker (EvGet name) ;;
  docker (EvOp Remove) ;;
  emit (EvInfo (py "[*] Removed")) ;;
  ret true.

(** [self.exported_methods], each name with its method. *)
Definition exported_methods : list (string * (Json -> M bool)) :=
  [("container_create", container_create);
   ("container_start", container_start);
   ("container_run", container_run);
   ("container_stop", container_stop);
   ("container_pause", container_pause);
   ("container_unpause", container_unpause);
   ("container_restart", container_restart);
   ("container_kill", container_kill);
   ("container_remove", container_remove)]%string.

(** The method that applies [op]. *)
Definition method_of (op : Op) : Json -> M bool :=
  match op with
  | Start => container_start
  | Stop => container_stop
  | Pause => container_pause
  | Unpause => container_unpause
  | Restart => container_restart
  | Remove => container_remove
  end.

End Methods.

(** The calls of the docker client in a list of events. *)
Definition docker_calls (evs : list Event) : list Event :=
  omap (fun e => match e with
                 | EvGet _ | EvOp _ | EvRun _ _ _ _ _ _ | EvLogs => Some e
                 | _ => None
                 end) evs.

(** The events that a run added. *)
Definition added (w w' : World) : list Event :=
  drop (length (w_trace w)) (w_trace w').

(** The keys that [container_run] reads, in the order of their first
    reading. *)
Definition run_keys : list str :=
  [py "devices"; py "image"; py "name"; py "environment"; py "volumes"].

(** The first of [keys] that the object [m] lacks. *)
Fixpoint first_missing (keys : list str) (m : list (str * Json)) : option str :=
  match keys with
  | [] => None
  | k :: keys' =>
      match assoc k m with
      | Some _ => first_missing keys' m
      | None => Some k
      end
  end.

(** A daemon that works, and one that knows no container. *)
Definition working : Env :=
  {| docker_fault := fun _ => None; send_fault := fun _ => None |}.

Definition unknown_container : Env :=
  {| docker_fault := fun _ => Some (DockerError (py "No such container"));
     send_fault := fun _ => None |}.

Definition w0 : World := {| w_tick := 0; w_trace := [] |}.

End ContainerPlugin.

(** * Properties *)

(** ** The search query *)

Section Sanitizer.

Variable db : Re.unicode_db.

Lemma scheme_match (url : str) :
  Re.matches db scheme_pattern 0 url (fun e _ => Some e) = scheme_len url.
Proof.
  unfold scheme_len.
  let p := eval vm_compute in scheme_pattern in change scheme_pattern with p.
  let p := eval vm_compute in (py "https://") in change (py "https://") with p.
  let p := eval vm_compute in (py "http://") in change (py "http://") with p.
  cbn [Re.matches Nat.eqb].
  repeat first
    [ reflexivity
    | match goal with
      | |- context [N.eqb ?a ?b] =>
          destruct (N.eqb a b); cbn [andb Re.matches starts_with]
      end
    | destruct url as [|? url]; cbn [Re.matches starts_with andb] ].
Qed.

Lemma match_at_start (url : str) :
  Re.match_at db serp_pattern 0 url =
    match scheme_len url with
    | Some n => Some n
    | None => Re.match_at db special_pattern 0 url
    end.
Proof.
  unfold Re.match_at, serp_pattern. cbn [Re.matches].
  rewrite scheme_match. reflexivity.
Qed.

Lemma match_at_later (pos : nat) (url : str) :
  Re.match_at db serp_pattern (S pos) url =
    Re.match_at db special_pattern (S pos) url.
Proof. reflexivity. Qed.

Lemma match_special (pos : nat) (c : N) (url : str) :
  Re.match_at db special_pattern pos (c :: url) =
    if Re.in_class db c Re.ClsWord || Re.in_class db c Re.ClsSpace
    then None else Some (S pos).
Proof.
  unfold Re.match_at, special_pattern. cbn [Re.matches existsb].
  rewrite orb_false_r. reflexivity.
Qed.

(** One character outside a match, after the first position. *)
Lemma scan_step (pos : nat) (c : N) (url : str) :
  Re.sub_scan db serp_pattern (py " ") (S pos) 0 (c :: url) =
    blank_special db c :: Re.sub_scan db serp_pattern (py " ") (S (S pos)) 0 url.
Proof.
  cbn [Re.sub_scan]. rewrite match_at_later, match_special.
  unfold blank_special. destruct (_ || _); [reflexivity|].
  replace (S (S pos) - S pos)%nat with 1%nat by lia. reflexivity.
Qed.

(** The first character when no scheme prefix is there. *)
Lemma scan_first (c : N) (url : str) :
  scheme_len (c :: url) = None ->
  Re.sub_scan db serp_pattern (py " ") 0 0 (c :: url) =
    blank_special db c :: Re.sub_scan db serp_pattern (py " ") 1 0 url.
Proof.
  intros Hnone. cbn [Re.sub_scan]. rewrite match_at_start, Hnone, match_special.
  unfold blank_special. destruct (_ || _); reflexivity.
Qed.

(** After the first position only the character class can match. *)
Lemma sub_scan_later (url : str) :
  forall pos skip,
    Re.sub_scan db serp_pattern (py " ") (S pos) skip url =
      map (blank_special db) (drop skip url).
Proof.
  induction url as [|c url IH]; intros pos skip.
  - destruct skip; reflexivity.
  - destruct skip as [|n].
    + rewrite scan_step, IH. reflexivity.
    + cbn [Re.sub_scan drop]. apply IH.
Qed.

(** The whole substitution in closed form. *)
Lemma serp_query_eq (url : str) :
  serp_query db url =
    match scheme_len url with
    | Some n => 32 :: map (blank_special db) (drop n url)
    | None => map (blank_special db) url
    end.
Proof.
  unfold serp_query, Re.sub. destruct url as [|c url]; [reflexivity|].
  destruct (scheme_len (c :: url)) as [n|] eqn:Hn.
  - cbn [Re.sub_scan]. rewrite match_at_start, Hn.
    assert (n = 8 \/ n = 7)%nat as Hn'.
    { unfold scheme_len in Hn. repeat case_match; naive_solver. }
    destruct Hn' as [-> | ->]; cbn [Nat.sub]; rewrite sub_scan_later; reflexivity.
  - rewrite (scan_first _ _ Hn), sub_scan_later. reflexivity.
Qed.

Lemma blank_special_class (c : N) :
  Re.is_alnum db (blank_special db c) || (blank_special db c =? 95)
  || Re.is_space db (blank_special db c) = true.
Proof.
  unfold blank_special. cbn [Re.in_class].
  destruct (Re.is_alnum db c || (c =? 95) || Re.is_space db c) eqn:E.
  - exact E.
  - reflexivity.
Qed.

Lemma blank_special_not_colon (c : N) : blank_special db c <> 58.
Proof.
  unfold blank_special. cbn [Re.in_class].
  destruct (Re.is_alnum db c || (c =? 95) || Re.is_space db c) eqn:E; [|done].
  intros ->. vm_compute in E. discriminate.
Qed.

End Sanitizer.

(** C7, as the code has it: a leading [http://] or [https://] is replaced by
    one space and every other character that is neither a word character
    (alphanumeric or underscore) nor whitespace is replaced by a space.  The
    query therefore has only alphanumerics, underscores and whitespace, and no
    scheme delimiter; the query of [https://example.com/foo-bar?x=1] is
    [ example com foo bar x 1], alphanumerics and spaces only. *)
Theorem serp_query_sanitized (db : Re.unicode_db) (url : str) :
  serp_query db url =
    match scheme_len url with
    | Some n => 32 :: map (blank_special db) (drop n url)
    | None => map (blank_special db) url
    end
  /\ Forall (fun c => Re.is_alnum db c || (c =? 95) || Re.is_space db c = true)
       (serp_query db url)
  /\ (forall pre post, serp_query db url <> pre ++ py "://" ++ post)
  /\ serp_query db (py "https://example.com/foo-bar?x=1")
     = py " example com foo bar x 1"
  /\ Forall (fun c => Re.is_alnum db c || Re.is_space db c = true)
       (serp_query db (py "https://example.com/foo-bar?x=1")).
Proof.
  assert (Forall (fun c => Re.is_alnum db c || (c =? 95) || Re.is_space db c = true)
            (serp_query db url)) as Hclass.
  { rewrite serp_query_eq. destruct (scheme_len url).
    - constructor; [reflexivity|].
      apply List.Forall_forall. intros c [d [<- _]]%in_map_iff.
      apply blank_special_class.
    - apply List.Forall_forall. intros c [d [<- _]]%in_map_iff.
      apply blank_special_class. }
  assert (~ In 58 (serp_query db url)) as Hcolon.
  { rewrite serp_query_eq. destruct (scheme_len url).
    - intros [?|[d [Hd _]]%in_map_iff]; [done|].
      by apply (blank_special_not_colon db d).
    - intros [d [Hd _]]%in_map_iff.
      by apply (blank_special_not_colon db d). }
  split; [apply serp_query_eq|]. split; [exact Hclass|]. split.
  - intros pre post Heq. apply Hcolon. rewrite Heq.
    apply in_or_app. right. left. reflexivity.
  - split; [vm_compute; reflexivity|].
    rewrite serp_query_eq. vm_compute. repeat constructor.
Qed.

(** C7, as the specification words it, fails on [http://a_b]: the underscore
    stays, and the scheme prefix leaves a space behind. *)
Lemma serp_query_keeps_underscore :
  serp_query Demo.ascii_only (py "http://a_b") = py " a_b"
  /\ ~ Forall (fun c => Re.is_alnum Demo.ascii_only c
                        || Re.is_space Demo.ascii_only c = true)
         (serp_query Demo.ascii_only (py "http://a_b"))
  /\ serp_query Demo.ascii_only (py "http://a_b")
     <> spec_sanitize Demo.ascii_only (py "http://a_b").
Proof.
  split; [reflexivity|]. split.
  - intros H. apply List.Forall_forall with (x := 95) in H.
    + vm_compute in H. discriminate.
    + vm_compute. right. right. left. reflexivity.
  - vm_compute. discriminate.
Qed.

(** ** Frames: what a computation leaves alone *)

Section Frame.

Context {X : Type} (proj : World -> X) (R : relation X) `{!PreOrder R}.

#[local] Abbreviation stable := (stable proj R).

Lemma stable_ret {A} (a : A) : stable (ret a).
Proof. intros w. reflexivity. Qed.

Lemma stable_raise {A} (e : Exn) : stable (@raise A e).
Proof. intros w. reflexivity. Qed.

Lemma stable_get_world : stable get_world.
Proof. intros w. reflexivity. Qed.

Lemma stable_bind {A B} (m : M A) (k : A -> M B) :
  stable m -> (forall a, stable (k a)) -> stable (bind m k).
Proof.
  intros Hm Hk w. unfold bind. specialize (Hm w).
  destruct (m w) as [[a|e] w']; cbn in *; [|done].
  etrans; [exact Hm | apply Hk].
Qed.

Lemma stable_try {A} (m : M A) (h : Exn -> M A) :
  stable m -> (forall e, stable (h e)) -> stable (try_except m h).
Proof.
  intros Hm Hh w. unfold try_except. specialize (Hm w).
  destruct (m w) as [[a|e] w']; cbn in *; [done|].
  etrans; [exact Hm | apply Hh].
Qed.

Lemma stable_lift_opt {A} (o : option A) (e : Exn) : stable (lift_opt o e).
Proof. destruct o; [apply stable_ret | apply stable_raise]. Qed.

Lemma stable_fault (o : option Exn) : stable (fault o).
Proof. destruct o; [apply stable_raise | apply stable_ret]. Qed.

End Frame.

Lemma calls_app (evs1 evs2 : list Event) :
  calls (evs1 ++ evs2) = calls evs1 ++ calls evs2.
Proof. apply omap_app. Qed.

Lemma sent_app (evs1 evs2 : list Event) :
  sent (evs1 ++ evs2) = sent evs1 ++ sent evs2.
Proof. apply omap_app. Qed.

#[local] Instance silent_preorder : PreOrder silent.
Proof.
  split.
  - intros t. exists []. by rewrite app_nil_r.
  - intros t1 t2 t3 (e1 & -> & H1 & S1) (e2 & -> & H2 & S2). exists (e1 ++ e2).
    by rewrite app_assoc, calls_app, sent_app, H1, H2, S1, S2.
Qed.

Lemma quiet_emit (e : Event) : is_observed e = false -> quiet (emit e).
Proof. intros He w. exists [e]. by destruct e. Qed.

Lemma keeps_emit (e : Event) : keeps (emit e).
Proof. intros w. reflexivity. Qed.

Lemma quiet_interact : quiet interact.
Proof. intros w. reflexivity. Qed.

Lemma keeps_interact : keeps interact.
Proof. intros w. reflexivity. Qed.

Lemma quiet_store_doc (i : str) (d : Document) : quiet (store_doc i d).
Proof. intros w. reflexivity. Qed.

(** A function that records its call and then stays quiet adds that one
    call. *)
Lemma call_then_quiet {A} (f : Fn) (args : list (list N)) (body : M A) :
  quiet body ->
  forall w, exists evs,
    w_trace ((emit (EvCall f args) ;; body) w).2 = w_trace w ++ evs
    /\ calls evs = [(f, args)] /\ sent evs = [].
Proof.
  intros Hb w. unfold bind. cbn [emit].
  destruct (Hb (emit (EvCall f args) w).2) as (evs & Ht & Hc & Hs).
  exists (EvCall f args :: evs). split; [|split].
  - cbn in Ht |- *. rewrite Ht, <- app_assoc. reflexivity.
  - change (calls (EvCall f args :: evs)) with ((f, args) :: calls evs).
    by rewrite Hc.
  - exact Hs.
Qed.

Ltac frame_unfold :=
  unfold requests_get, requests_get_value, requests_post, response_json,
    py_get, py_getitem, py_getitem0, py_encode_value, py_encode, py_decode,
    es_get, es_index_doc, now, conn_send, sock_op, generate_id.

Ltac frame_step :=
  first
    [ match goal with |- PreOrder _ => apply _ end
    | apply stable_ret | apply stable_raise | apply stable_get_world
    | apply stable_lift_opt | apply stable_fault
    | apply quiet_interact | apply keeps_interact
    | apply keeps_emit | apply quiet_store_doc
    | apply quiet_emit; reflexivity
    | apply stable_bind | apply stable_try
    | progress intros
    | progress cbv beta
    | case_match ].

Ltac frame := frame_unfold; repeat frame_step.

Section Frames.

Variable rt : Runtime.
Variable env : Env.

Lemma fetch_cache_calls (url : str) (w : World) :
  exists evs,
    w_trace (fetch_cache_from_elasticsearch rt env url w).2 = w_trace w ++ evs
    /\ calls evs = [(FnFetchCache, [url])] /\ sent evs = [].
Proof. apply call_then_quiet. frame. Qed.

Lemma fetch_archive_calls (url : str) (w : World) :
  exists evs,
    w_trace (fetch_cache_from_internet_archive env url w).2 = w_trace w ++ evs
    /\ calls evs = [(FnFetchArchive, [url])] /\ sent evs = [].
Proof. apply call_then_quiet. frame. Qed.

Lemma fetch_origin_calls (url : str) (w : World) :
  exists evs,
    w_trace (fetch_origin_server rt env url w).2 = w_trace w ++ evs
    /\ calls evs = [(FnFetchOrigin, [url])] /\ sent evs = [].
Proof. apply call_then_quiet. frame. Qed.

Lemma query_serp_calls (url : str) (w : World) :
  exists evs,
    w_trace (query_to_serp rt env url w).2 = w_trace w ++ evs
    /\ calls evs = [(FnQuerySerp, [url])] /\ sent evs = [].
Proof. apply call_then_quiet. frame. Qed.

Lemma query_llm_calls (content : bytes) (w : World) :
  exists evs,
    w_trace (query_to_llm rt env content w).2 = w_trace w ++ evs
    /\ calls evs = [(FnQueryLlm, [content])] /\ sent evs = [].
Proof. apply call_then_quiet. frame. Qed.

Lemma push_cache_calls (url : str) (data : bytes) (w : World) :
  exists evs,
    w_trace (push_cache_to_elasticsearch rt env url data w).2 = w_trace w ++ evs
    /\ calls evs = [(FnPushCache, [url; data])] /\ sent evs = [].
Proof. apply call_then_quiet. frame. Qed.

Lemma conn_send_trace (data : bytes) (w : World) :
  w_trace (conn_send env data w).2 = w_trace w ++ [EvConnSend data].
Proof.
  unfold conn_send, bind, fault. cbn [emit interact].
  destruct (env_conn_fault env _); reflexivity.
Qed.

Lemma fetch_cache_keeps (url : str) :
  keeps (fetch_cache_from_elasticsearch rt env url).
Proof. unfold fetch_cache_from_elasticsearch. frame. Qed.

Lemma fetch_archive_keeps (url : str) :
  keeps (fetch_cache_from_internet_archive env url).
Proof. unfold fetch_cache_from_internet_archive. frame. Qed.

Lemma fetch_origin_keeps (url : str) : keeps (fetch_origin_server rt env url).
Proof. unfold fetch_origin_server. frame. Qed.

Lemma query_serp_keeps (url : str) : keeps (query_to_serp rt env url).
Proof. unfold query_to_serp. frame. Qed.

Lemma query_llm_keeps (content : bytes) : keeps (query_to_llm rt env content).
Proof. unfold query_to_llm. frame. Qed.

Lemma conn_send_keeps (data : bytes) : keeps (conn_send env data).
Proof. frame. Qed.

End Frames.

(** ** The chain *)

Ltac chain_cbn :=
  unfold bind, emit, ret, raise, if_not_connected;
  cbn [negb fst snd app w_tick w_docs w_conn_in w_trace].

Section ChainProps.

Variable rt : Runtime.
Variable env : Env.
Variable target : str.

Lemma info_trace (msg : string) (w : World) :
  w_trace (info msg w) = w_trace w ++ [EvLogInfo (py msg)].
Proof. reflexivity. Qed.

Lemma info_docs (msg : string) (w : World) : w_docs (info msg w) = w_docs w.
Proof. reflexivity. Qed.

(** [generate_id] went through whenever the cache lookup returned. *)
Lemma fetch_cache_returns (url : str) (w w1 : World) (r : Z * bytes) :
  fetch_cache_from_elasticsearch rt env url w = (Ok r, w1) ->
  exists b, utf8_encode url = Some b.
Proof.
  unfold fetch_cache_from_elasticsearch, generate_id, lift_opt. chain_cbn.
  destruct (utf8_encode url) as [b|]; [eauto|]. chain_cbn. discriminate.
Qed.

(** [push_cache_to_elasticsearch] swallows every failure of the decoding
    and of the indexing. *)
Lemma push_cache_total (url : str) (b : bytes) (data : bytes) (w : World) :
  utf8_encode url = Some b ->
  (push_cache_to_elasticsearch rt env url data w).1 = Ok tt.
Proof.
  intros Hb.
  unfold push_cache_to_elasticsearch, generate_id, now, py_decode,
    es_index_doc, lift_opt, fault, try_except, get_world, store_doc, interact.
  rewrite Hb. chain_cbn.
  destruct (decode rt data); chain_cbn; [|reflexivity].
  destruct (env_es_fault env _); reflexivity.
Qed.

(** Soundness: the branch ends as the path says. *)
Lemma connect_get_path (w : World) (p : path) (w' : World) :
  chain_path rt env target w p w' ->
  connect_get rt env target w = finish env p w'.
Proof.
  unfold connect_get.
  destruct 1; unfold cache_miss, archive_miss, origin_miss, serp_miss in *;
    repeat match goal with
      | H : exists _, _ |- _ => destruct H
      | H : _ /\ _ |- _ => destruct H
      end;
    unfold info, emit in *; cbn [snd] in *; chain_cbn;
    repeat match goal with
      | H : ?f = (_, _) |- context [?f] => rewrite H; chain_cbn
      | H : ?s <> 200%Z |- context [(?s =? 200)%Z] =>
          destruct (Z.eqb_spec s 200); [contradiction|]; chain_cbn
      | |- context [(200 =? 200)%Z] => rewrite Z.eqb_refl; chain_cbn
      end;
    reflexivity.
Qed.

(** Totality: every run follows one of the paths. *)
Lemma chain_path_total (w : World) :
  exists p w', chain_path rt env target w p w'.
Proof.
  destruct (fetch_cache_from_elasticsearch rt env target
              (info "Trying get data from Elasticsearch..." w))
    as [[[s1 c1]|e1] w1] eqn:H1; [|eauto using chain_path].
  destruct (Z.eq_dec s1 200%Z) as [->|N1]; [eauto using chain_path|].
  assert (cache_miss rt env target w w1) as M1 by (red; eauto).
  destruct (fetch_cache_from_internet_archive env target
              (info "Trying get data from Wayback Machine..." w1))
    as [[[s2 c2]|e2] w2] eqn:H2; [|eauto using chain_path].
  destruct (Z.eq_dec s2 200%Z) as [->|N2]; [eauto using chain_path|].
  assert (archive_miss env target w1 w2) as M2 by (red; eauto).
  destruct (fetch_origin_server rt env target w2)
    as [[[s3 c3]|e3] w3] eqn:H3; [|eauto using chain_path].
  destruct (Z.eq_dec s3 200%Z) as [->|N3].
  { destruct (fetch_cache_returns _ _ _ _ H1) as [b Hb].
    pose proof (push_cache_total target b c3 w3 Hb) as Hp.
    destruct (push_cache_to_elasticsearch rt env target c3 w3) as [r4 w4] eqn:H4.
    cbn in Hp. subst r4. eauto using chain_path. }
  assert (origin_miss rt env target w2 w3) as M3 by (red; eauto).
  destruct (query_to_serp rt env target w3)
    as [[[s4 c4]|e4] w4] eqn:H4; [|eauto using chain_path].
  destruct (Z.eq_dec s4 200%Z) as [->|N4].
  { destruct (query_to_llm rt env c4 w4) as [[[ls lc]|e5] w5] eqn:H5;
      eauto using chain_path. }
  assert (serp_miss rt env target w3 w4) as M4 by (red; eauto).
  eauto using chain_path.
Qed.

(** The paths exclude one another: a run follows one path only. *)
Lemma chain_path_unique (w : World) (p q : path) (w1 w2 : World) :
  chain_path rt env target w p w1 ->
  chain_path rt env target w q w2 ->
  p = q /\ w1 = w2.
Proof.
  intros Hp Hq. destruct Hp; destruct Hq;
    unfold cache_miss, archive_miss, origin_miss, serp_miss in *;
    repeat match goal with
      | H : exists _, _ |- _ => destruct H
      | H : _ /\ _ |- _ => destruct H
      end;
    repeat match goal with
      | H1 : ?f = _, H2 : ?f = _ |- _ =>
          rewrite H1 in H2; injection H2 as ?; subst
      end;
    try done.
  all: repeat match goal with
      | H1 : ?f = _, H2 : ?f = _ |- _ => rewrite H1 in H2; try discriminate
      end.
Qed.

(** What a path leaves in the trace before the branch ends. *)
Lemma chain_path_trace (w : World) (p : path) (w' : World) :
  chain_path rt env target w p w' ->
  exists evs,
    w_trace w' = w_trace w ++ evs
    /\ calls evs = path_calls target p /\ sent evs = [].
Proof.
  destruct 1; unfold cache_miss, archive_miss, origin_miss, serp_miss in *;
    repeat match goal with
      | H : exists _, _ |- _ => destruct H
      | H : _ /\ _ |- _ => destruct H
      end;
    repeat match goal with
      | H : fetch_cache_from_elasticsearch rt env ?u ?v = (_, ?v') |- _ =>
          let E := fresh "E" in
          destruct (fetch_cache_calls rt env u v) as (? & E & ? & ?);
          rewrite H in E; cbn [snd] in E; clear H
      | H : fetch_cache_from_internet_archive env ?u ?v = (_, ?v') |- _ =>
          let E := fresh "E" in
          destruct (fetch_archive_calls env u v) as (? & E & ? & ?);
          rewrite H in E; cbn [snd] in E; clear H
      | H : fetch_origin_server rt env ?u ?v = (_, ?v') |- _ =>
          let E := fresh "E" in
          destruct (fetch_origin_calls rt env u v) as (? & E & ? & ?);
          rewrite H in E; cbn [snd] in E; clear H
      | H : push_cache_to_elasticsearch rt env ?u ?d ?v = (_, ?v') |- _ =>
          let E := fresh "E" in
          destruct (push_cache_calls rt env u d v) as (? & E & ? & ?);
          rewrite H in E; cbn [snd] in E; clear H
      | H : query_to_serp rt env ?u ?v = (_, ?v') |- _ =>
          let E := fresh "E" in
          destruct (query_serp_calls rt env u v) as (? & E & ? & ?);
          rewrite H in E; cbn [snd] in E; clear H
      | H : query_to_llm rt env ?u ?v = (_, ?v') |- _ =>
          let E := fresh "E" in
          destruct (query_llm_calls rt env u v) as (? & E & ? & ?);
          rewrite H in E; cbn [snd] in E; clear H
      end;
    repeat first
      [ rewrite info_trace
      | match goal with
        | E : w_trace _ = _ |- _ => rewrite E; clear E
        end ];
    rewrite <- ?app_assoc;
    eexists; (split; [reflexivity|]);
    rewrite ?calls_app, ?sent_app;
    repeat match goal with
      | H : calls _ = _ |- _ => rewrite H; clear H
      | H : sent _ = _ |- _ => rewrite H; clear H
      end;
    split; reflexivity.
Qed.

(** What a whole run of the branch adds to the trace. *)
Lemma connect_get_trace (w : World) (p : path) (w' : World) :
  chain_path rt env target w p w' ->
  exists evs,
    w_trace (connect_get rt env target w).2 = w_trace w ++ evs
    /\ calls evs = path_calls target p /\ sent evs = path_sent p.
Proof.
  intros Hp. rewrite (connect_get_path _ _ _ Hp).
  destruct (chain_path_trace _ _ _ Hp) as (evs & Ht & Hc & Hs).
  assert (forall (b : bytes) (c : bool), exists evs',
             w_trace ((conn_send env b ;; ret c) w').2 = w_trace w ++ evs'
             /\ calls evs' = path_calls target p /\ sent evs' = [b]) as Hsend.
  { intros b c. exists (evs ++ [EvConnSend b]).
    replace (w_trace ((conn_send env b ;; ret c) w').2)
      with (w_trace (conn_send env b w').2).
    - rewrite conn_send_trace, Ht, <- app_assoc, calls_app, sent_app, Hc, Hs.
      rewrite app_nil_r. done.
    - unfold bind. destruct (conn_send env b w') as [[[]|?] ?]; reflexivity. }
  destruct p; cbn [finish path_sent]; first [apply Hsend | by exists evs].
Qed.

End ChainProps.

(** ** The method [connect] *)

Section Connect.

Variable rt : Runtime.
Variable env : Env.
Variables (data webserver : bytes) (port : Z) (scheme url : bytes).
Variables (u sch host : str).
Hypothesis Hurl : decode rt url = Some u.
Hypothesis Hscheme : decode rt scheme = Some sch.
Hypothesis Hhost : decode rt webserver = Some host.

Lemma connect_GET (w : World) :
  connect rt env data webserver port scheme (py "GET") url w =
    connect_get rt env (absolute_url u sch host port)
      (info "[*] Connecting... Connecting..." w).
Proof.
  unfold connect, py_decode, lift_opt. rewrite Hurl, Hscheme, Hhost.
  rewrite bool_decide_eq_true_2 by reflexivity. reflexivity.
Qed.

Lemma connect_other (method : bytes) (w : World) :
  method <> py "GET" ->
  connect rt env data webserver port scheme method url w =
    connect_relay rt env data webserver port
      (bool_decide (scheme ∈ [py "https"; py "tls"; py "ssl"]))
      (info "[*] Connecting... Connecting..." w).
Proof.
  intros Hm. unfold connect, py_decode, lift_opt. rewrite Hurl, Hscheme, Hhost.
  rewrite bool_decide_eq_false_2 by exact Hm. reflexivity.
Qed.

End Connect.

Lemma new_events_app (w w' : World) (evs : list Event) :
  w_trace w' = w_trace w ++ evs -> new_events w w' = evs.
Proof. intros H. unfold new_events. rewrite H. apply drop_app_length. Qed.

(** What a [GET] request adds to the trace, along its path. *)
Lemma connect_GET_trace (rt : Runtime) (env : Env)
    (data webserver : bytes) (port : Z) (scheme url : bytes) (u sch host : str)
    (w : World) (p : path) (w' : World) :
  decode rt url = Some u ->
  decode rt scheme = Some sch ->
  decode rt webserver = Some host ->
  chain_path rt env (absolute_url u sch host port)
    (info "[*] Connecting... Connecting..." w) p w' ->
  let run := connect rt env data webserver port scheme (py "GET") url w in
  run = finish env p w'
  /\ calls (new_events w run.2) = path_calls (absolute_url u sch host port) p
  /\ sent (new_events w run.2) = path_sent p.
Proof.
  intros Hu Hs Hh Hp run. subst run.
  rewrite (connect_GET rt env data webserver port scheme url u sch host Hu Hs Hh).
  split; [by apply connect_get_path|].
  destruct (connect_get_trace _ _ _ _ _ _ Hp) as (evs & Ht & Hc & Hsent).
  rewrite info_trace, <- app_assoc in Ht.
  rewrite (new_events_app _ _ _ Ht). by rewrite calls_app, sent_app, Hc, Hsent.
Qed.

Lemma keeps_run {A} (m : M A) (w : World) (r : Result A) (w' : World) :
  keeps m -> m w = (r, w') -> w_docs w' = w_docs w.
Proof. intros Hk Hrun. specialize (Hk w). rewrite Hrun in Hk. done. Qed.

Lemma send_then_ret (env : Env) (b : bytes) (c : bool) (w w' : World) :
  conn_send env b w = (Ok tt, w') ->
  (conn_send env b ;; ret c) w = (Ok c, w').
Proof. intros H. unfold bind. rewrite H. reflexivity. Qed.

Lemma send_then_ret_result (env : Env) (b : bytes) (c d : bool) (w w' : World) :
  (conn_send env b ;; ret c) w = (Ok d, w') -> c = d.
Proof.
  unfold bind, ret. destruct (conn_send env b w) as [[[]|e] w1]; intros H;
    by simplify_eq.
Qed.

(** A failing write to the cache: the text does not decode, or the store
    fails.  It is logged and nothing else happens. *)
Lemma push_cache_failure (rt : Runtime) (env : Env) (url : str) (b data : bytes)
    (w : World) :
  utf8_encode url = Some b ->
  decode rt data = None \/ is_Some (env_es_fault env (w_tick w)) ->
  (push_cache_to_elasticsearch rt env url data w).1 = Ok tt
  /\ w_docs (push_cache_to_elasticsearch rt env url data w).2 = w_docs w
  /\ exists msg,
       last (w_trace (push_cache_to_elasticsearch rt env url data w).2)
       = Some (EvLogError msg).
Proof.
  intros Hb Hfail.
  unfold push_cache_to_elasticsearch, generate_id, now, py_decode,
    es_index_doc, lift_opt, fault, try_except, get_world, store_doc, interact.
  rewrite Hb. chain_cbn.
  destruct (decode rt data) as [text|]; chain_cbn.
  - destruct Hfail as [?|[e He]]; [done|]. rewrite He. chain_cbn.
    repeat split; eexists; apply last_snoc.
  - repeat split; eexists; apply last_snoc.
Qed.

(** C3: when cache and archive miss and the origin answers 200 with body
    [B], a [GET] request is resolved, [B] is what the client receives, and
    [push_cache_to_elasticsearch] is called once, with the url and [B]; a
    run in which it is called at all is such a run. *)
Theorem origin_hit_backfills_cache (rt : Runtime) (env : Env)
    (data webserver : bytes) (port : Z) (scheme url : bytes) (u sch host : str) :
  decode rt url = Some u ->
  decode rt scheme = Some sch ->
  decode rt webserver = Some host ->
  let target := absolute_url u sch host port in
  let run := connect rt env data webserver port scheme (py "GET") url in
  (forall (w w1 w2 w3 w4 w5 : World) (B : bytes) (r4 : Result unit),
      cache_miss rt env target (started w) w1 ->
      archive_miss env target w1 w2 ->
      fetch_origin_server rt env target w2 = (Ok (200%Z, B), w3) ->
      push_cache_to_elasticsearch rt env target B w3 = (r4, w4) ->
      conn_send env B w4 = (Ok tt, w5) ->
      run w = (Ok true, w5)
      /\ sent (new_events w w5) = [B]
      /\ calls_to FnPushCache (new_events w w5) = [[target; B]])
  /\ (forall w : World,
        calls_to FnPushCache (new_events w (run w).2) <> [] ->
        exists (w1 w2 w3 : World) (B : bytes),
          cache_miss rt env target (started w) w1
          /\ archive_miss env target w1 w2
          /\ fetch_origin_server rt env target w2 = (Ok (200%Z, B), w3)
          /\ calls_to FnPushCache (new_events w (run w).2) = [[target; B]]).
Proof.
  intros Hu Hs Hh target run. split.
  - intros w w1 w2 w3 w4 w5 B r4 M1 M2 H3 H4 Hsend.
    assert (exists b, utf8_encode target = Some b) as [b Hb].
    { destruct M1 as (s & c & H1 & _). eapply fetch_cache_returns, H1. }
    pose proof (push_cache_total rt env target b B w3 Hb) as Hr4.
    rewrite H4 in Hr4. cbn in Hr4. subst r4.
    pose proof (path_origin_hit rt env target _ _ _ _ _ _ M1 M2 H3 H4) as Hp.
    destruct (connect_GET_trace rt env data webserver port scheme url u sch host
                w _ _ Hu Hs Hh Hp) as (Hrun & Hc & Hsent).
    fold target in Hc. fold run in Hrun, Hc, Hsent.
    cbn [finish] in Hrun. rewrite (send_then_ret _ _ _ _ _ Hsend) in Hrun.
    rewrite Hrun in Hc, Hsent. cbn [snd] in Hc, Hsent.
    split; [exact Hrun|]. split; [exact Hsent|].
    unfold calls_to. rewrite Hc. reflexivity.
  - intros w Hput.
    destruct (chain_path_total rt env target (started w)) as (p & w' & Hp).
    destruct (connect_GET_trace rt env data webserver port scheme url u sch host
                w _ _ Hu Hs Hh Hp) as (_ & Hc & _).
    fold target in Hc. fold run in Hc.
    unfold calls_to in Hput |- *. rewrite Hc in Hput |- *.
    destruct p; try (exfalso; apply Hput; reflexivity).
    inversion Hp; subst. eauto 10.
Qed.

(** C4: when the cache answers 200, the cache lookup is the only function
    of the chain that a [GET] request calls, and its body is what the client
    receives; in every run the sources are attempted in the order cache,
    archive, origin, search, each at most once and none after a later one. *)
Theorem cache_hit_short_circuits (rt : Runtime) (env : Env)
    (data webserver : bytes) (port : Z) (scheme url : bytes) (u sch host : str) :
  decode rt url = Some u ->
  decode rt scheme = Some sch ->
  decode rt webserver = Some host ->
  let target := absolute_url u sch host port in
  let run := connect rt env data webserver port scheme (py "GET") url in
  (forall (w w1 : World) (c : bytes),
      fetch_cache_from_elasticsearch rt env target
        (info "Trying get data from Elasticsearch..." (started w))
      = (Ok (200%Z, c), w1) ->
      calls (new_events w (run w).2) = [(FnFetchCache, [target])]
      /\ sent (new_events w (run w).2) = [c])
  /\ (forall w : World,
        attempts (new_events w (run w).2) `prefix_of` sources).
Proof.
  intros Hu Hs Hh target run. split.
  - intros w w1 c H1.
    pose proof (path_cache_hit rt env target _ _ _ H1) as Hp.
    destruct (connect_GET_trace rt env data webserver port scheme url u sch host
                w _ _ Hu Hs Hh Hp) as (_ & Hc & Hsent).
    split; assumption.
  - intros w.
    destruct (chain_path_total rt env target (started w)) as (p & w' & Hp).
    destruct (connect_GET_trace rt env data webserver port scheme url u sch host
                w _ _ Hu Hs Hh Hp) as (_ & Hc & _).
    fold target in Hc. fold run in Hc.
    unfold attempts. rewrite Hc.
    destruct p; cbn [path_calls];
      [ exists [FnFetchArchive; FnFetchOrigin; FnQuerySerp]
      | exists [FnFetchArchive; FnFetchOrigin; FnQuerySerp]
      | exists [FnFetchOrigin; FnQuerySerp]
      | exists [FnFetchOrigin; FnQuerySerp]
      | exists [FnQuerySerp] | exists [FnQuerySerp]
      | exists [] | exists [] | exists [] | exists [] ];
      reflexivity.
Qed.

(** C5: when all four sources miss, a [GET] request is unresolved, the
    client receives an empty body, the cache is not written; and an
    unresolved [GET] request is one in which all four sources missed. *)
Theorem exhaustion_is_unresolved (rt : Runtime) (env : Env)
    (data webserver : bytes) (port : Z) (scheme url : bytes) (u sch host : str) :
  decode rt url = Some u ->
  decode rt scheme = Some sch ->
  decode rt webserver = Some host ->
  let target := absolute_url u sch host port in
  let run := connect rt env data webserver port scheme (py "GET") url in
  (forall w w1 w2 w3 w4 w5 : World,
      cache_miss rt env target (started w) w1 ->
      archive_miss env target w1 w2 ->
      origin_miss rt env target w2 w3 ->
      serp_miss rt env target w3 w4 ->
      conn_send env [] w4 = (Ok tt, w5) ->
      run w = (Ok false, w5)
      /\ sent (new_events w w5) = [[]]
      /\ calls_to FnPushCache (new_events w w5) = []
      /\ w_docs w5 = w_docs w)
  /\ (forall w w' : World,
        run w = (Ok false, w') ->
        exists w1 w2 w3 w4 : World,
          cache_miss rt env target (started w) w1
          /\ archive_miss env target w1 w2
          /\ origin_miss rt env target w2 w3
          /\ serp_miss rt env target w3 w4).
Proof.
  intros Hu Hs Hh target run. split.
  - intros w w1 w2 w3 w4 w5 M1 M2 M3 M4 Hsend.
    pose proof (path_exhausted rt env target _ _ _ _ _ M1 M2 M3 M4) as Hp.
    destruct (connect_GET_trace rt env data webserver port scheme url u sch host
                w _ _ Hu Hs Hh Hp) as (Hrun & Hc & Hsent).
    fold target in Hc. fold run in Hrun, Hc, Hsent.
    cbn [finish] in Hrun. rewrite (send_then_ret _ _ _ _ _ Hsend) in Hrun.
    rewrite Hrun in Hc, Hsent. cbn [snd] in Hc, Hsent.
    split; [exact Hrun|]. split; [exact Hsent|]. split.
    + unfold calls_to. rewrite Hc. reflexivity.
    + destruct M1 as (? & ? & H1 & _), M2 as (? & ? & H2 & _),
        M3 as (? & ? & H3 & _), M4 as (? & ? & H4 & _).
      rewrite (keeps_run _ _ _ _ (conn_send_keeps env _) Hsend).
      rewrite (keeps_run _ _ _ _ (query_serp_keeps rt env _) H4).
      rewrite (keeps_run _ _ _ _ (fetch_origin_keeps rt env _) H3).
      rewrite (keeps_run _ _ _ _ (fetch_archive_keeps env _) H2).
      rewrite info_docs.
      rewrite (keeps_run _ _ _ _ (fetch_cache_keeps rt env _) H1).
      reflexivity.
  - intros w w' Hrun.
    destruct (chain_path_total rt env target (started w)) as (p & w'' & Hp).
    destruct (connect_GET_trace rt env data webserver port scheme url u sch host
                w _ _ Hu Hs Hh Hp) as (Hfin & _ & _).
    fold run in Hfin. rewrite Hrun in Hfin. symmetry in Hfin.
    destruct p; cbn [finish] in Hfin;
      try discriminate Hfin;
      try (apply send_then_ret_result in Hfin; discriminate Hfin).
    inversion Hp; subst. eauto 10.
Qed.

(** C8: after an origin answer 200 with body [B], a write to the cache that
    fails, because [B] does not decode or because the store fails, is logged
    and changes nothing: the call returns, the request is resolved and the
    client receives [B]. *)
Theorem cache_write_failure_is_swallowed (rt : Runtime) (env : Env)
    (data webserver : bytes) (port : Z) (scheme url : bytes) (u sch host : str)
    (w w1 w2 w3 w5 : World) (B : bytes) :
  decode rt url = Some u ->
  decode rt scheme = Some sch ->
  decode rt webserver = Some host ->
  let target := absolute_url u sch host port in
  let put := push_cache_to_elasticsearch rt env target B w3 in
  cache_miss rt env target (started w) w1 ->
  archive_miss env target w1 w2 ->
  fetch_origin_server rt env target w2 = (Ok (200%Z, B), w3) ->
  decode rt B = None \/ is_Some (env_es_fault env (w_tick w3)) ->
  conn_send env B put.2 = (Ok tt, w5) ->
  put.1 = Ok tt
  /\ w_docs put.2 = w_docs w3
  /\ (exists msg, last (w_trace put.2) = Some (EvLogError msg))
  /\ connect rt env data webserver port scheme (py "GET") url w = (Ok true, w5)
  /\ sent (new_events w w5) = [B].
Proof.
  intros Hu Hs Hh target put M1 M2 H3 Hfail Hsend.
  assert (exists b, utf8_encode target = Some b) as [b Hb].
  { destruct M1 as (s & c & H1 & _). eapply fetch_cache_returns, H1. }
  destruct (push_cache_failure rt env target b B w3 Hb Hfail)
    as (Hok & Hdocs & Hlog).
  fold put in Hok, Hdocs, Hlog.
  split; [exact Hok|]. split; [exact Hdocs|]. split; [exact Hlog|].
  assert (push_cache_to_elasticsearch rt env target B w3 = (Ok tt, put.2)) as H4.
  { fold put. rewrite <- Hok. by destruct put. }
  pose proof (path_origin_hit rt env target _ _ _ _ _ _ M1 M2 H3 H4) as Hp.
  destruct (connect_GET_trace rt env data webserver port scheme url u sch host
              w _ _ Hu Hs Hh Hp) as (Hrun & _ & Hsent).
  cbn [finish] in Hrun. rewrite (send_then_ret _ _ _ _ _ Hsend) in Hrun.
  rewrite Hrun in Hsent. cbn [snd] in Hsent.
  split; [exact Hrun | exact Hsent].
Qed.

(** ** The archive *)

(** An exception of the availability lookup leaves the function: the
    request is made before the [try]. *)
Lemma archive_lookup_raises (env : Env) (url : str) (w : World) (e : Exn) :
  env_http env (w_tick w)
    (HttpGet (py "http://archive.org/wayback/available?url=" ++ url)) = inl e ->
  (fetch_cache_from_internet_archive env url w).1 = Raise e.
Proof.
  intros H. unfold fetch_cache_from_internet_archive, requests_get, interact.
  chain_cbn. rewrite H. reflexivity.
Qed.

(** C10: a status [s] other than 200 of the availability lookup is what
    [fetch_cache_from_internet_archive] returns, with an empty body. *)
Theorem archive_lookup_status_passes_through (env : Env) (url : str)
    (w : World) (resp : Response) :
  env_http env (w_tick w)
    (HttpGet (py "http://archive.org/wayback/available?url=" ++ url)) = inr resp ->
  status_code resp <> 200%Z ->
  (fetch_cache_from_internet_archive env url w).1 = Ok (status_code resp, []).
Proof.
  intros H Hs. unfold fetch_cache_from_internet_archive, requests_get, interact.
  chain_cbn. rewrite H. chain_cbn.
  destruct (Z.eqb_spec (status_code resp) 200); [contradiction|reflexivity].
Qed.

Lemma archive_lookup_status_passes_through_demo :
  (fetch_cache_from_internet_archive Demo.archive_busy Demo.target Demo.w0).1
  = Ok (503%Z, []).
Proof.
  apply (archive_lookup_status_passes_through Demo.archive_busy Demo.target
           Demo.w0 {| status_code := 503; content := py "busy"; resp_json := None |}).
  - reflexivity.
  - vm_compute. discriminate.
Defined.

(** C2 fails on the code: with the availability service out of reach the
    exception leaves [fetch_cache_from_internet_archive] and then
    [connect]. *)
Theorem archive_lookup_exception_escapes :
  (forall w,
      (fetch_cache_from_internet_archive Demo.archive_unreachable Demo.target w).1
      = Raise (TransportError (py "Connection refused")))
  /\ (connect Demo.rt Demo.archive_unreachable [] Demo.host 80 Demo.scheme
        (py "GET") Demo.page Demo.w0).1
     = Raise (TransportError (py "Connection refused")).
Proof.
  split.
  - intros w. apply archive_lookup_raises. reflexivity.
  - vm_compute. reflexivity.
Qed.

(** ** The cache *)

(** C6: a document written for a url with content that decodes, and whose
    text encodes back to the content, is found by the next lookup of that
    url, which returns 200 and the content; the store answers both calls. *)
Theorem cache_round_trip (rt : Runtime) (env : Env) (url : str)
    (content : bytes) (text : str) (b : bytes) (w : World) :
  utf8_encode url = Some b ->
  decode rt content = Some text ->
  encode rt text = Some content ->
  env_es_fault env (w_tick w) = None ->
  env_es_fault env (S (w_tick w)) = None ->
  let put := push_cache_to_elasticsearch rt env url content w in
  put.1 = Ok tt
  /\ (fetch_cache_from_elasticsearch rt env url put.2).1 = Ok (200%Z, content).
Proof.
  intros Hb Hd He H0 H1 put. subst put.
  unfold push_cache_to_elasticsearch, fetch_cache_from_elasticsearch,
    generate_id, now, py_decode, py_encode, es_index_doc, es_get, lift_opt,
    fault, try_except, get_world, store_doc, interact.
  rewrite Hb. chain_cbn. rewrite Hd. chain_cbn. rewrite H0. chain_cbn.
  split; [reflexivity|].
  rewrite H1. chain_cbn. rewrite lookup_insert_eq. chain_cbn.
  cbn [doc_content]. rewrite He. reflexivity.
Qed.

Lemma cache_round_trip_demo :
  let put :=
    push_cache_to_elasticsearch Demo.rt Demo.origin_up Demo.target
      (py "<html>") Demo.w0 in
  put.1 = Ok tt
  /\ (fetch_cache_from_elasticsearch Demo.rt Demo.origin_up Demo.target put.2).1
     = Ok (200%Z, py "<html>").
Proof.
  apply (cache_round_trip Demo.rt Demo.origin_up Demo.target (py "<html>")
           (py "<html>") (default [] (utf8_encode Demo.target)) Demo.w0);
    reflexivity.
Defined.

(** ** The relay of the other methods *)

Section Relay.

Variable env : Env.

Lemma sock_op_conn_in (e : Event) (w : World) :
  w_conn_in (sock_op env e w).2 = w_conn_in w.
Proof.
  unfold sock_op, interact, fault. chain_cbn.
  destruct (env_sock_fault env _); reflexivity.
Qed.

Lemma sock_op_ok (e : Event) (w : World) :
  (forall n, env_sock_fault env n = None) ->
  (sock_op env e w).1 = Ok tt.
Proof.
  intros H. unfold sock_op, interact, fault. chain_cbn. rewrite H. reflexivity.
Qed.

(** The loop of [sendall] ends by itself: the fuel it is given is never
    used up. *)
Lemma relay_loop_ends (fuel : nat) :
  forall w, (length (w_conn_in w) < fuel)%nat ->
            (relay_loop env fuel w).1 = Ok true.
Proof.
  induction fuel as [|n IH]; intros w Hlen; [lia|].
  cbn [relay_loop]. unfold try_except, conn_recv. chain_cbn.
  destruct (w_conn_in w) as [|[e|chunk] rest] eqn:Hin; chain_cbn;
    [reflexivity | reflexivity |].
  case_bool_decide; chain_cbn; [reflexivity|].
  match goal with
  | |- context [sock_op env ?e ?v] =>
      pose proof (sock_op_conn_in e v) as Hc;
      destruct (sock_op env e v) as [[[]|e'] w'];
      cbn [snd w_conn_in] in Hc
  end; chain_cbn; [|reflexivity].
  apply IH. rewrite Hc. cbn in Hlen. lia.
Qed.

Lemma sendall_ok (_data : bytes) (w : World) :
  (forall n, env_sock_fault env n = None) ->
  (sendall env _data w).1 = Ok tt.
Proof.
  intros H. unfold sendall.
  pose proof (sock_op_ok (EvSockSend _data) w H) as Hs.
  unfold bind at 1. destruct (sock_op env (EvSockSend _data) w) as [r w1].
  cbn in Hs. subst r.
  destruct (N.of_nat (length _data) <? buffer_size); [reflexivity|].
  unfold get_world. chain_cbn.
  match goal with
  | |- context [relay_loop env ?f ?v] =>
      pose proof (relay_loop_ends f v) as Hl;
      destruct (relay_loop env f v) as [r w2]
  end.
  cbn in Hl. rewrite Hl by lia. reflexivity.
Qed.

Lemma bind_ok_fst {A B} (m : M A) (k : A -> M B) (w : World) (a : A) :
  (m w).1 = Ok a -> bind m k w = k a (m w).2.
Proof. unfold bind. destruct (m w) as [r w']. cbn. by intros ->. Qed.

Lemma bind_ret_fst {A} (m : M A) (a : A) (c : bool) (w : World) :
  (m w).1 = Ok a -> (bind m (fun _ => ret c) w).1 = Ok c.
Proof. unfold bind. destruct (m w) as [r w']. cbn. by intros ->. Qed.

Lemma bind_not_true {A} (m : M A) (k : A -> M bool) (w : World) :
  (forall a w', (k a w').1 <> Ok true) -> (bind m k w).1 <> Ok true.
Proof.
  intros Hk. unfold bind. destruct (m w) as [[a|e] w']; [apply Hk|done].
Qed.

End Relay.

(** C9: a request with a method other than [GET] never makes [connect]
    return [True]; and when the request fields decode and the upstream socket
    works, so that the relay completes, [connect] returns [False]. *)
Theorem relay_returns_false (rt : Runtime) (env : Env)
    (data webserver : bytes) (port : Z) (scheme method url : bytes) :
  method <> py "GET" ->
  (forall w,
      (connect rt env data webserver port scheme method url w).1 <> Ok true)
  /\ (forall w,
        is_Some (decode rt url) ->
        is_Some (decode rt scheme) ->
        is_Some (decode rt webserver) ->
        (forall n, env_sock_fault env n = None) ->
        (connect rt env data webserver port scheme method url w).1 = Ok false).
Proof.
  intros Hm. split.
  - intros w. unfold connect. rewrite (bool_decide_eq_false_2 _ Hm).
    repeat (apply bind_not_true; intros ? ?).
    unfold connect_relay.
    repeat (apply bind_not_true; intros ? ?). done.
  - intros w [u Hu] [sch Hs] [host Hh] Hsock.
    rewrite (connect_other rt env data webserver port scheme url u sch host
               Hu Hs Hh method w Hm).
    unfold connect_relay, py_decode, lift_opt. rewrite Hh.
    rewrite (bind_ok_fst _ _ _ _ (sock_op_ok env _ _ Hsock)).
    apply (bind_ret_fst _ tt).
    destruct (bool_decide _).
    + change (bind (ret host) ?k ?v) with (k host v). cbv beta.
      rewrite (bind_ok_fst _ _ _ _ (sock_op_ok env _ _ Hsock)).
      rewrite (bind_ok_fst _ _ _ _ (sock_op_ok env _ _ Hsock)).
      by apply sendall_ok.
    + rewrite (bind_ok_fst _ _ _ _ (sock_op_ok env _ _ Hsock)).
      by apply sendall_ok.
Qed.

Lemma relay_returns_false_demo :
  (connect Demo.rt Demo.origin_up (py "POST /page HTTP/1.1") Demo.host 80
     Demo.scheme (py "POST") Demo.page Demo.w0).1 = Ok false.
Proof.
  apply (proj2 (relay_returns_false Demo.rt Demo.origin_up
                  (py "POST /page HTTP/1.1") Demo.host 80 Demo.scheme
                  (py "POST") Demo.page ltac:(vm_compute; discriminate))).
  - vm_compute. eauto.
  - vm_compute. eauto.
  - vm_compute. eauto.
  - reflexivity.
Defined.

(** ** Runs of the chain on concrete networks *)

Ltac run_source := vm_compute; reflexivity.
Ltac run_miss := eexists _, _; split; [run_source | vm_compute; discriminate].

Lemma origin_hit_backfills_cache_demo :
  exists w5,
    connect Demo.rt Demo.origin_up [] Demo.host 80 Demo.scheme (py "GET")
      Demo.page Demo.w0 = (Ok true, w5)
    /\ sent (new_events Demo.w0 w5) = [py "<html>"]
    /\ calls_to FnPushCache (new_events Demo.w0 w5)
       = [[Demo.target; py "<html>"]].
Proof.
  eexists.
  eapply (proj1 (origin_hit_backfills_cache Demo.rt Demo.origin_up [] Demo.host
                   80 Demo.scheme Demo.page Demo.page Demo.scheme Demo.host
                   eq_refl eq_refl eq_refl)).
  - run_miss.
  - run_miss.
  - run_source.
  - run_source.
  - run_source.
Defined.

Lemma cache_hit_short_circuits_demo :
  let run :=
    connect Demo.rt Demo.origin_up [] Demo.host 80 Demo.scheme (py "GET")
      Demo.page Demo.w_cached in
  calls (new_events Demo.w_cached run.2) = [(FnFetchCache, [Demo.target])]
  /\ sent (new_events Demo.w_cached run.2) = [py "cached"].
Proof.
  eapply (proj1 (cache_hit_short_circuits Demo.rt Demo.origin_up [] Demo.host
                   80 Demo.scheme Demo.page Demo.page Demo.scheme Demo.host
                   eq_refl eq_refl eq_refl)).
  run_source.
Defined.

Lemma exhaustion_is_unresolved_demo :
  exists w5,
    connect Demo.rt Demo.all_down [] Demo.host 80 Demo.scheme (py "GET")
      Demo.page Demo.w0 = (Ok false, w5)
    /\ sent (new_events Demo.w0 w5) = [[]]
    /\ calls_to FnPushCache (new_events Demo.w0 w5) = []
    /\ w_docs w5 = w_docs Demo.w0.
Proof.
  eexists.
  eapply (proj1 (exhaustion_is_unresolved Demo.rt Demo.all_down [] Demo.host
                   80 Demo.scheme Demo.page Demo.page Demo.scheme Demo.host
                   eq_refl eq_refl eq_refl)).
  - run_miss.
  - run_miss.
  - run_miss.
  - run_miss.
  - run_source.
Defined.

Lemma cache_write_failure_is_swallowed_demo :
  exists w5,
    connect Demo.rt (Demo.store_down Demo.origin_up) [] Demo.host 80 Demo.scheme
      (py "GET") Demo.page Demo.w0 = (Ok true, w5)
    /\ sent (new_events Demo.w0 w5) = [py "<html>"].
Proof.
  eexists.
  eapply (cache_write_failure_is_swallowed Demo.rt
            (Demo.store_down Demo.origin_up) [] Demo.host
            80 Demo.scheme Demo.page Demo.page Demo.scheme Demo.host
            Demo.w0 _ _ _ _ (py "<html>") eq_refl eq_refl eq_refl).
  - run_miss.
  - run_miss.
  - run_source.
  - right. vm_compute. eauto.
  - run_source.
Defined.

(** C1 fails on the code: the search answers 200 with body [S], the
    summarizer answers 502, and the client receives the error text of the
    summarizer, not [S]. *)
Theorem summarizer_failure_replaces_results :
  let run :=
    connect Demo.rt Demo.summarizer_down [] Demo.host 80 Demo.scheme (py "GET")
      Demo.page Demo.w0 in
  (forall w,
      (query_to_serp Demo.rt Demo.summarizer_down Demo.target w).1
      = Ok (200%Z, py "S"))
  /\ (forall w,
        (query_to_llm Demo.rt Demo.summarizer_down (py "S") w).1
        = Ok (502%Z, py "ChatGPT API returned status code 502"))
  /\ run.1 = Ok true
  /\ sent (w_trace run.2) = [py "ChatGPT API returned status code 502"]
  /\ sent (w_trace run.2) <> [py "S"].
Proof.
  cbv zeta. split; [|split; [|split; [|split]]].
  - intros w. vm_compute. reflexivity.
  - intros w. vm_compute. reflexivity.
  - vm_compute. reflexivity.
  - vm_compute. reflexivity.
  - vm_compute. discriminate.
Qed.

(** Whatever status the summarizer returns, its body is what a search hit
    sends to the client. *)
Lemma search_hit_sends_llm_content (rt : Runtime) (env : Env) (target : str)
    (w w' : World) (results : bytes) (ls : Z) (lc : bytes) :
  chain_path rt env target w (SearchHit results ls lc) w' ->
  connect_get rt env target w = (conn_send env lc ;; ret true) w'.
Proof. apply connect_get_path. Qed.


(** * Further properties of the sources *)

Ltac run_code :=
  unfold fetch_cache_from_elasticsearch, fetch_cache_from_internet_archive,
    fetch_origin_server, query_to_serp, query_to_llm,
    push_cache_to_elasticsearch, requests_get_value, requests_get,
    requests_post, response_json, py_get, py_getitem, py_getitem0,
    py_encode_value, py_encode, py_decode, es_get, es_index_doc, now,
    conn_send, sock_op, generate_id, lift_opt, fault, try_except, get_world,
    store_doc, interact;
  chain_cbn.

(** Case analysis on a test of the code whose scrutinee holds no other
    test. *)
Ltac case_inner :=
  match goal with
  | |- context [match ?x with _ => _ end] =>
      lazymatch x with
      | context [match _ with _ => _ end] => fail
      | _ => destruct x eqn:?
      end
  end.

Ltac split_code := repeat (case_inner; chain_cbn).

Ltac new_events_eq :=
  apply new_events_app; cbn [w_trace]; rewrite <- ?app_assoc; reflexivity.

Ltac new_events_rw :=
  erewrite new_events_app
    by (cbn [w_trace]; rewrite <- ?app_assoc; reflexivity).

Lemma utf8_char_None (c : N) : utf8_char c = None <-> unencodable c = true.
Proof.
  unfold utf8_char, unencodable.
  destruct (N.ltb_spec c 128), (N.ltb_spec c 2048), (N.ltb_spec c 65536),
    (N.ltb_spec c 1114112), (N.leb_spec 55296 c), (N.leb_spec c 57343),
    (N.leb_spec 1114112 c); cbn; split; intros; try done; lia.
Qed.

(** [str.encode("utf-8")] fails on lone surrogates and on nothing else that
    a string can hold. *)
Lemma utf8_encode_None (s : str) :
  utf8_encode s = None <-> existsb unencodable s = true.
Proof.
  induction s as [|c s IH]; [done|].
  cbn [utf8_encode existsb]. rewrite orb_true_iff, <- IH, <- utf8_char_None.
  destruct (utf8_char c), (utf8_encode s); intuition congruence.
Qed.

Section CacheLookup.

Variable rt : Runtime.
Variable env : Env.

Lemma fetch_cache_lookup (url : str) (b : bytes) (w : World) (d : Document) :
  utf8_encode url = Some b ->
  env_es_fault env (w_tick w) = None ->
  w_docs w !! sha256_hexdigest rt b = Some d ->
  (fetch_cache_from_elasticsearch rt env url w).1
  = match encode rt (doc_content d) with
    | Some c => Ok (200%Z, c)
    | None => Ok (502%Z, [])
    end.
Proof.
  intros Hb Hf Hd. run_code. rewrite Hb. chain_cbn.
  rewrite Hf. chain_cbn. rewrite Hd. chain_cbn.
  destruct (encode rt (doc_content d)); reflexivity.
Qed.

(** X1: what the cache lookup returns for a url without lone surrogates.
    A [NotFoundError] of the store and a missing document are a miss, 404;
    every other failure of the store, and a stored text that does not encode
    under the client encoding, are 502; a stored text that encodes is
    returned with 200.  A 502 leaves one error log, a 404 and a 200 none. *)
Theorem fetch_cache_outcome (url : str) (b : bytes) (w : World) :
  utf8_encode url = Some b ->
  let r := fetch_cache_from_elasticsearch rt env url w in
  r.1 = match env_es_fault env (w_tick w) with
        | Some NotFoundError => Ok (404%Z, [])
        | Some _ => Ok (502%Z, [])
        | None =>
            match w_docs w !! sha256_hexdigest rt b with
            | None => Ok (404%Z, [])
            | Some d =>
                match encode rt (doc_content d) with
                | Some c => Ok (200%Z, c)
                | None => Ok (502%Z, [])
                end
            end
        end
  /\ length (error_logs (new_events w r.2))
     = match r.1 with
       | Ok (502%Z, _) => 1%nat
       | _ => 0%nat
       end.
Proof.
  intros Hb r. subst r. run_code. rewrite Hb. chain_cbn.
  destruct (env_es_fault env (w_tick w)) as [e|]; chain_cbn.
  { destruct e; chain_cbn; (split; [reflexivity|]); new_events_rw;
      reflexivity. }
  destruct (w_docs w !! sha256_hexdigest rt b) as [d|]; chain_cbn;
    [|split; [reflexivity|]; new_events_rw; reflexivity].
  destruct (encode rt (doc_content d)); chain_cbn;
    (split; [reflexivity|]); new_events_rw; reflexivity.
Qed.

(** X2: the cache lookup raises exactly on a url that holds a lone
    surrogate, and then before the store is contacted; on every other url it
    returns 200, or 404 or 502 with an empty body. *)
Theorem fetch_cache_boundary (url : str) (w : World) :
  let r := fetch_cache_from_elasticsearch rt env url w in
  if existsb unencodable url
  then r.1 = Raise UnicodeError
       /\ new_events w r.2 = [EvCall FnFetchCache [url]]
  else exists s c,
      r.1 = Ok (s, c)
      /\ (s = 200%Z \/ (s = 404%Z \/ s = 502%Z) /\ c = []).
Proof.
  intros r. subst r.
  destruct (existsb unencodable url) eqn:Hu.
  - apply utf8_encode_None in Hu. run_code. rewrite Hu. chain_cbn.
    split; [reflexivity|]. new_events_eq.
  - destruct (utf8_encode url) as [b|] eqn:Hb;
      [|apply utf8_encode_None in Hb; congruence].
    run_code. rewrite Hb. chain_cbn.
    destruct (env_es_fault env (w_tick w)) as [e|]; chain_cbn.
    { destruct e; chain_cbn; eauto 10. }
    destruct (w_docs w !! sha256_hexdigest rt b) as [d|]; chain_cbn; [|eauto 10].
    destruct (encode rt (doc_content d)); chain_cbn; eauto 10.
Qed.

End CacheLookup.

Section Fetchers.

Variable rt : Runtime.
Variable env : Env.

(** X3: [fetch_origin_server] makes one request and hands on what the origin
    answers, status and body, whatever the status; an exception reads as 502
    with its text as the body, and leaves the function only when that text
    does not encode. *)
Theorem fetch_origin_outcome (url : str) (w : World) :
  let r := fetch_origin_server rt env url w in
  r.1 = match env_http env (w_tick w) (HttpGet url) with
        | inr resp => Ok (status_code resp, content resp)
        | inl e =>
            match encode rt (exn_str rt e) with
            | Some b => Ok (502%Z, b)
            | None => Raise UnicodeError
            end
        end
  /\ requests (new_events w r.2) = [HttpGet url].
Proof.
  intros r. subst r. run_code.
  destruct (env_http env (w_tick w) (HttpGet url)) as [e|resp]; chain_cbn.
  - destruct (encode rt (exn_str rt e)); chain_cbn;
      (split; [reflexivity|]); new_events_rw; reflexivity.
  - split; [reflexivity|]. new_events_rw. reflexivity.
Qed.

(** X4: [query_to_serp] makes one request, whatever comes of it: a [GET] of
    the configured base url with [/api.php?q=] and the sanitized url, which
    is not percent-encoded. *)
Theorem query_to_serp_single_request (url : str) (w : World) :
  requests (new_events w (query_to_serp rt env url w).2)
  = [HttpGet (librey_url rt ++ py "/api.php?q=" ++ serp_query (unicode rt) url)].
Proof.
  run_code.
  split_code; new_events_rw; reflexivity.
Qed.

Lemma try_except_returns {A} (m : M A) (h : Exn -> M A) :
  (forall e w, exists a, (h e w).1 = Ok a) ->
  forall w, exists a, (try_except m h w).1 = Ok a.
Proof.
  intros Hh w. unfold try_except. destruct (m w) as [[a|e] w']; [eauto|apply Hh].
Qed.

(** X5: with a client encoding that encodes every string, the origin fetch,
    the search query and the summarizer never raise: every failure comes back
    as a status. *)
Theorem fetchers_return_under_total_encoding (arg : list N) (w : World) :
  (forall s, is_Some (encode rt s)) ->
  (exists r, (fetch_origin_server rt env arg w).1 = Ok r)
  /\ (exists r, (query_to_serp rt env arg w).1 = Ok r)
  /\ (exists r, (query_to_llm rt env arg w).1 = Ok r).
Proof.
  intros Henc.
  assert (forall (msg : str) (w' : World),
             exists a, ((b <- py_encode rt msg ;; ret (502%Z, b)) w').1 = Ok a)
    as Hhandler.
  { intros msg w'. unfold py_encode, lift_opt.
    destruct (Henc msg) as [b ->]. chain_cbn. eauto. }
  unfold fetch_origin_server, query_to_serp, query_to_llm.
  repeat split; unfold bind at 1; cbn [emit];
    apply try_except_returns; intros e w'; apply Hhandler.
Qed.

(** X6: search results that do not decode under the client encoding are not
    sent to the summarizer: no request is made, and the outcome is 502 with
    the text of the error. *)
Theorem query_to_llm_undecodable (content : bytes) (w : World) :
  decode rt content = None ->
  let r := query_to_llm rt env content w in
  requests (new_events w r.2) = []
  /\ r.1 = match encode rt (py "Error querying ChatGPT API: "
                              ++ exn_str rt UnicodeError) with
           | Some b => Ok (502%Z, b)
           | None => Raise UnicodeError
           end.
Proof.
  intros Hd r. subst r. run_code. rewrite Hd. chain_cbn.
  destruct (encode rt _); chain_cbn;
    (split; [new_events_rw; reflexivity | reflexivity]).
Qed.

End Fetchers.

Section Summarizer.

Variable rt : Runtime.
Variable env : Env.

(** X7: the summarizer reports 200 in one case only: the results decode,
    the API answers 200 with a JSON document that has a string at
    [choices[0].message.content], and that string encodes; the body is then
    that string. *)
Theorem query_to_llm_200_iff (content : bytes) (w : World) (b : bytes) :
  (query_to_llm rt env content w).1 = Ok (200%Z, b) <->
  exists text resp j t,
    decode rt content = Some text
    /\ env_http env (w_tick w) (llm_request rt text) = inr resp
    /\ status_code resp = 200%Z
    /\ resp_json resp = Some j
    /\ completion_text j = Some t
    /\ encode rt t = Some b.
Proof.
  unfold llm_request. split.
  - run_code. split_code; intros Hr; simplify_eq;
      try match goal with
        | H : (?s =? 200)%Z = false, H' : ?s = 200%Z |- _ =>
            rewrite H' in H; discriminate
        end.
    all: match goal with
         | H : (_ =? 200)%Z = true |- _ => apply Z.eqb_eq in H
         end.
    all: eexists _, _, _, _; split; [reflexivity|];
      repeat (split; [eassumption|]); split; [|eassumption];
      unfold completion_text;
      repeat match goal with H : assoc _ _ = _ |- _ => rewrite H end;
      reflexivity.
  - intros (text & resp & j & t & Hd & Hr & Hs & Hj & Ht & Hb).
    run_code. rewrite Hd. chain_cbn. rewrite Hr. chain_cbn.
    rewrite Hs. chain_cbn. rewrite Hj. chain_cbn.
    unfold completion_text in Ht.
    repeat match type of Ht with
      | context [match ?x with _ => _ end] =>
          lazymatch x with
          | context [match _ with _ => _ end] => fail
          | _ => destruct x eqn:?; try discriminate Ht; cbn beta iota in Ht
          end
      end.
    injection Ht as ->. rewrite Z.eqb_refl. chain_cbn.
    repeat match goal with H : assoc _ _ = _ |- _ => rewrite H; chain_cbn end.
    rewrite Hb. reflexivity.
Qed.

End Summarizer.

Section Archive.

Variable env : Env.

(** X8: when the availability service answers 200 and reports no closest
    snapshot, the archive is a miss: 404 with an empty body, and no second
    request is made. *)
Theorem archive_unarchived_is_404 (url : str) (w : World) (resp : Response)
    (m ms : list (str * Json)) :
  env_http env (w_tick w) (HttpGet (wayback_api_url url)) = inr resp ->
  status_code resp = 200%Z ->
  resp_json resp = Some (JObj m) ->
  default (JObj []) (assoc (py "archived_snapshots") m) = JObj ms ->
  assoc (py "closest") ms = None ->
  let r := fetch_cache_from_internet_archive env url w in
  r.1 = Ok (404%Z, [])
  /\ requests (new_events w r.2) = [HttpGet (wayback_api_url url)].
Proof.
  intros Hr Hs Hj Hm Hc r. subst r. unfold wayback_api_url in *.
  run_code. rewrite Hr. chain_cbn. rewrite Hs, Z.eqb_refl. chain_cbn.
  rewrite Hj. chain_cbn. rewrite Hm. chain_cbn. rewrite Hc. chain_cbn.
  split; [reflexivity|]. new_events_rw. reflexivity.
Qed.

(** X9: when the availability service reports a closest snapshot with a
    url, that url is fetched next; the status of that answer is returned,
    with its body when the status is 200 and an empty body otherwise, and an
    exception of that fetch reads as 502. *)
Theorem archive_snapshot_fetched (url : str) (w : World) (resp : Response)
    (m ms mc : list (str * Json)) (u : str) :
  env_http env (w_tick w) (HttpGet (wayback_api_url url)) = inr resp ->
  status_code resp = 200%Z ->
  resp_json resp = Some (JObj m) ->
  assoc (py "archived_snapshots") m = Some (JObj ms) ->
  assoc (py "closest") ms = Some (JObj mc) ->
  assoc (py "url") mc = Some (JStr u) ->
  u <> [] ->
  let r := fetch_cache_from_internet_archive env url w in
  r.1 = match env_http env (S (w_tick w)) (HttpGet u) with
        | inr page =>
            Ok (status_code page,
                if (status_code page =? 200)%Z then content page else [])
        | inl _ => Ok (502%Z, [])
        end
  /\ requests (new_events w r.2) = [HttpGet (wayback_api_url url); HttpGet u].
Proof.
  intros Hr Hs Hj Hm Hc Hu Hne r. subst r. unfold wayback_api_url in *.
  run_code. rewrite Hr. chain_cbn. rewrite Hs, Z.eqb_refl. chain_cbn.
  rewrite Hj. chain_cbn. rewrite Hm. cbn [from_option id]. chain_cbn.
  rewrite Hc. cbn [from_option id]. chain_cbn.
  assert (truthy (JObj mc) = true) as -> by (destruct mc; [done|reflexivity]).
  rewrite Hu. cbn [from_option id]. chain_cbn.
  assert (truthy (JStr u) = true) as ->.
  { cbn. by rewrite bool_decide_eq_false_2. }
  chain_cbn.
  destruct (env_http env (S (w_tick w)) (HttpGet u)) as [e|page]; chain_cbn.
  - split; [reflexivity|]. new_events_rw. reflexivity.
  - destruct (status_code page =? 200)%Z; chain_cbn;
      (split; [reflexivity|]); new_events_rw; reflexivity.
Qed.

(** X10: an answer 200 of the availability service that is no JSON, or
    whose JSON is no object, reads as 502 with an empty body. *)
Theorem archive_malformed_is_502 (url : str) (w : World) (resp : Response) :
  env_http env (w_tick w) (HttpGet (wayback_api_url url)) = inr resp ->
  status_code resp = 200%Z ->
  match resp_json resp with
  | Some (JObj _) => False
  | _ => True
  end ->
  let r := fetch_cache_from_internet_archive env url w in
  r.1 = Ok (502%Z, [])
  /\ requests (new_events w r.2) = [HttpGet (wayback_api_url url)].
Proof.
  intros Hr Hs Hj r. subst r. unfold wayback_api_url in *.
  run_code. rewrite Hr. chain_cbn. rewrite Hs, Z.eqb_refl. chain_cbn.
  destruct (resp_json resp) as [[]|]; try done; chain_cbn;
    (split; [reflexivity|]); new_events_rw; reflexivity.
Qed.

(** X11: the archive reports 200 only with the body of a snapshot that was
    fetched with status 200, after the availability lookup; the answer of
    the availability service is never returned as content. *)
Theorem archive_hit_is_a_snapshot (url : str) (w : World) (c : bytes) :
  let r := fetch_cache_from_internet_archive env url w in
  r.1 = Ok (200%Z, c) ->
  exists u page,
    requests (new_events w r.2) = [HttpGet (wayback_api_url url); HttpGet u]
    /\ env_http env (S (w_tick w)) (HttpGet u) = inr page
    /\ status_code page = 200%Z
    /\ content page = c.
Proof.
  intros r. subst r. unfold wayback_api_url. run_code.
  split_code; intros Hr; simplify_eq;
    try match goal with
      | H : (?s =? 200)%Z = false, H' : ?s = 200%Z |- _ =>
          rewrite H' in H; discriminate
      end.
  eexists _, _. split; [new_events_rw; reflexivity|]. eauto.
Qed.

(** X12: the one exception that leaves the archive lookup is that of the
    availability request; everything after it comes back as a status. *)
Theorem archive_raises_iff (url : str) (w : World) (e : Exn) :
  (fetch_cache_from_internet_archive env url w).1 = Raise e <->
  env_http env (w_tick w) (HttpGet (wayback_api_url url)) = inl e.
Proof.
  unfold wayback_api_url. run_code.
  split_code; split; intros Hr; simplify_eq; done.
Qed.

End Archive.

(** * Further properties of [connect] *)

Lemma starts_with_app (n rest : str) : starts_with n (n ++ rest) = true.
Proof.
  induction n as [|c n IH]; [done|].
  cbn [starts_with app]. by rewrite N.eqb_refl, IH.
Qed.

Lemma contains_app (n pre rest : str) : contains n (pre ++ n ++ rest) = true.
Proof.
  induction pre as [|c pre IH].
  - cbn [app]. destruct (n ++ rest) eqn:E; cbn [contains];
      rewrite <- E, starts_with_app; reflexivity.
  - cbn [app contains]. rewrite IH. apply orb_true_r.
Qed.

(** X13: the url that the chain works on always holds a scheme delimiter,
    and making a url absolute a second time changes nothing. *)
Theorem absolute_url_has_scheme (u sch host : str) (port : Z) :
  contains (py "://") (absolute_url u sch host port) = true
  /\ absolute_url (absolute_url u sch host port) sch host port
     = absolute_url u sch host port.
Proof.
  assert (contains (py "://") (absolute_url u sch host port) = true) as H.
  { unfold absolute_url. destruct (contains (py "://") u) eqn:E; cbn [negb].
    - exact E.
    - apply contains_app. }
  split; [exact H|]. unfold absolute_url at 1. by rewrite H.
Qed.

Section ConnectEdges.

Variable rt : Runtime.
Variable env : Env.
Variables (data webserver : bytes) (port : Z) (scheme method url : bytes).

(** X14: when the url, the scheme or the host of a request does not decode
    under the client encoding, [connect] raises, whatever the method, and has
    done nothing but write its first log line. *)
Theorem connect_undecodable_field (w : World) :
  decode rt url = None \/ decode rt scheme = None
  \/ decode rt webserver = None ->
  let r := connect rt env data webserver port scheme method url w in
  r.1 = Raise UnicodeError
  /\ new_events w r.2 = [EvLogInfo (py "[*] Connecting... Connecting...")].
Proof.
  intros H r. subst r. unfold connect, py_decode, lift_opt. chain_cbn.
  destruct (decode rt url); chain_cbn;
    [|split; [reflexivity | new_events_eq]].
  destruct (decode rt scheme); chain_cbn;
    [|split; [reflexivity | new_events_eq]].
  destruct (decode rt webserver); chain_cbn;
    [|split; [reflexivity | new_events_eq]].
  destruct H as [?|[?|?]]; done.
Qed.

End ConnectEdges.

(** ** What each branch leaves in the trace *)

Lemma grows_by_refl (P : Event -> bool) : Reflexive (grows_by P).
Proof. intros t. exists []. by rewrite app_nil_r. Qed.

Lemma grows_by_trans (P : Event -> bool) : Transitive (grows_by P).
Proof.
  intros t1 t2 t3 (e1 & -> & H1) (e2 & -> & H2). exists (e1 ++ e2).
  by rewrite app_assoc, forallb_app, H1, H2.
Qed.

#[local] Instance grows_by_preorder (P : Event -> bool) : PreOrder (grows_by P).
Proof. split; [apply grows_by_refl | apply grows_by_trans]. Qed.

Lemma grows_emit (P : Event -> bool) (e : Event) :
  P e = true -> stable w_trace (grows_by P) (emit e).
Proof. intros He w. exists [e]. cbn. by rewrite He. Qed.

Lemma grows_same_trace (P : Event -> bool) {A} (m : M A) :
  (forall w, w_trace (m w).2 = w_trace w) -> stable w_trace (grows_by P) m.
Proof. intros H w. rewrite H. reflexivity. Qed.

Lemma grows_new_events (P : Event -> bool) {A} (m : M A) (w : World) :
  stable w_trace (grows_by P) m -> forallb P (new_events w (m w).2) = true.
Proof.
  intros H. destruct (H w) as (evs & Ht & HP).
  by rewrite (new_events_app _ _ _ Ht).
Qed.

Lemma omap_none_forallb {B} (P : Event -> bool) (f : Event -> option B)
    (evs : list Event) :
  (forall e, P e = true -> f e = None) ->
  forallb P evs = true -> omap f evs = [].
Proof.
  intros Hf. induction evs as [|e evs IH]; [done|].
  cbn [forallb]. intros [He Hevs]%andb_true_iff.
  cbn [omap list_omap]. rewrite (Hf e He). by apply IH.
Qed.

Ltac grow_step :=
  first
    [ match goal with |- PreOrder _ => apply _ end
    | apply stable_ret | apply stable_raise | apply stable_get_world
    | apply stable_lift_opt | apply stable_fault
    | apply grows_emit; reflexivity
    | apply grows_same_trace; intros; reflexivity
    | apply stable_bind | apply stable_try
    | progress intros
    | progress cbv beta
    | case_match ].

Ltac grow :=
  unfold requests_get_value, requests_get, requests_post, response_json,
    py_get, py_getitem, py_getitem0, py_encode_value, py_encode, py_decode,
    es_get, es_index_doc, now, conn_send, sock_op, generate_id;
  repeat grow_step.

Section Branches.

Variable rt : Runtime.
Variable env : Env.

Lemma conn_recv_grows :
  stable w_trace (grows_by relay_may_emit) conn_recv.
Proof.
  intros w. exists [EvConnRecv]. unfold conn_recv. chain_cbn.
  destruct (w_conn_in w) as [|[e|c] rest]; done.
Qed.

Lemma relay_loop_grows (fuel : nat) :
  stable w_trace (grows_by relay_may_emit) (relay_loop env fuel).
Proof.
  induction fuel as [|n IH]; cbn [relay_loop]; [grow|].
  apply stable_bind; [apply _ | | intros []; [exact IH | grow]].
  apply stable_try; [apply _ | | grow].
  apply stable_bind; [apply _ | apply conn_recv_grows |]. intros chunk.
  case_bool_decide; grow.
Qed.

Lemma connect_relay_grows (data webserver : bytes) (port : Z) (is_ssl : bool) :
  stable w_trace (grows_by relay_may_emit)
    (connect_relay rt env data webserver port is_ssl).
Proof.
  unfold connect_relay, sendall.
  repeat first [ apply relay_loop_grows | grow_step | progress grow ].
Qed.

Lemma conn_recv_keeps : keeps conn_recv.
Proof.
  intros w. unfold conn_recv. chain_cbn.
  destruct (w_conn_in w) as [|[e|c] rest]; done.
Qed.

Lemma relay_loop_keeps (fuel : nat) : keeps (relay_loop env fuel).
Proof.
  induction fuel as [|n IH]; cbn [relay_loop]; [frame|].
  apply stable_bind; [apply _ | | intros []; [exact IH | frame]].
  apply stable_try; [apply _ | | frame].
  apply stable_bind; [apply _ | apply conn_recv_keeps |]. intros chunk.
  case_bool_decide; frame.
Qed.

Lemma connect_relay_keeps (data webserver : bytes) (port : Z) (is_ssl : bool) :
  keeps (connect_relay rt env data webserver port is_ssl).
Proof.
  unfold connect_relay, sendall.
  repeat first [ apply relay_loop_keeps | frame_step | progress frame ].
Qed.

(** X15: a request with a method other than [GET] is never answered: the
    run touches the upstream socket and reads from the client only, so it
    writes nothing to the client, calls no source, makes no HTTP request, and
    leaves the store as it was. *)
Theorem relay_never_answers (data webserver : bytes) (port : Z)
    (scheme method url : bytes) (w : World) :
  method <> py "GET" ->
  let r := connect rt env data webserver port scheme method url w in
  forallb relay_may_emit (new_events w r.2) = true
  /\ sent (new_events w r.2) = []
  /\ calls (new_events w r.2) = []
  /\ requests (new_events w r.2) = []
  /\ w_docs r.2 = w_docs w.
Proof.
  intros Hm r.
  assert (stable w_trace (grows_by relay_may_emit)
            (connect rt env data webserver port scheme method url)) as Hg.
  { unfold connect. rewrite (bool_decide_eq_false_2 _ Hm).
    repeat first [ apply connect_relay_grows | grow_step | progress grow ]. }
  assert (keeps (connect rt env data webserver port scheme method url)) as Hk.
  { unfold connect. rewrite (bool_decide_eq_false_2 _ Hm).
    repeat first [ apply connect_relay_keeps | frame_step | progress frame ]. }
  pose proof (grows_new_events _ _ w Hg) as Hall. fold r in Hall.
  split; [exact Hall|].
  repeat split;
    try (eapply omap_none_forallb; [|exact Hall]; by intros []).
  symmetry. apply Hk.
Qed.

Lemma connect_get_grows (target : str) :
  stable w_trace (grows_by chain_may_emit) (connect_get rt env target).
Proof.
  unfold connect_get, if_not_connected, fetch_cache_from_elasticsearch,
    fetch_cache_from_internet_archive, fetch_origin_server,
    push_cache_to_elasticsearch, query_to_serp, query_to_llm.
  grow.
Qed.

(** X16: a [GET] request never opens an upstream socket and never reads
    from the client connection: the run only logs, calls the sources, uses
    the store, makes HTTP requests and writes to the client. *)
Theorem get_never_relays (data webserver : bytes) (port : Z)
    (scheme url : bytes) (w : World) :
  let r := connect rt env data webserver port scheme (py "GET") url w in
  forallb chain_may_emit (new_events w r.2) = true
  /\ sock_sends (new_events w r.2) = []
  /\ w_conn_in r.2 = w_conn_in w.
Proof.
  intros r.
  assert (stable w_trace (grows_by chain_may_emit)
            (connect rt env data webserver port scheme (py "GET") url)) as Hg.
  { unfold connect. rewrite bool_decide_eq_true_2 by reflexivity.
    repeat first [ apply connect_get_grows | grow_step | progress grow ]. }
  assert (stable w_conn_in eq
            (connect rt env data webserver port scheme (py "GET") url)) as Hk.
  { unfold connect. rewrite bool_decide_eq_true_2 by reflexivity.
    unfold connect_get, if_not_connected, fetch_cache_from_elasticsearch,
      fetch_cache_from_internet_archive, fetch_origin_server,
      push_cache_to_elasticsearch, query_to_serp, query_to_llm.
    frame_unfold.
    repeat first
      [ match goal with |- PreOrder _ => apply _ end
      | apply stable_ret | apply stable_raise | apply stable_get_world
      | apply stable_lift_opt | apply stable_fault
      | apply stable_bind | apply stable_try
      | progress intros | progress cbv beta
      | solve [intros ?; reflexivity]
      | case_match ]. }
  pose proof (grows_new_events _ _ w Hg) as Hall. fold r in Hall.
  split; [exact Hall|]. split.
  - eapply omap_none_forallb; [|exact Hall]. by intros [].
  - symmetry. apply Hk.
Qed.

End Branches.

Section SendAll.

Variable env : Env.

Lemma relay_loop_forwards (fuel : nat) :
  (forall n, env_sock_fault env n = None) ->
  forall w, (length (w_conn_in w) < fuel)%nat ->
    exists evs,
      w_trace (relay_loop env fuel w).2 = w_trace w ++ evs
      /\ sock_sends evs = forwarded (w_conn_in w).
Proof.
  intros Hsock. induction fuel as [|n IH]; intros w Hlen; [lia|].
  cbn [relay_loop]. unfold try_except, conn_recv, sock_op, interact, fault.
  chain_cbn.
  destruct (w_conn_in w) as [|[e|chunk] rest] eqn:Hin; chain_cbn;
    [by exists [EvConnRecv] | by exists [EvConnRecv] |].
  cbn [forwarded]. case_bool_decide; chain_cbn; [by exists [EvConnRecv]|].
  rewrite Hsock. chain_cbn.
  match goal with
  | |- context [relay_loop env n ?v] => destruct (IH v) as (evs & Ht & Hs)
  end.
  { cbn [w_conn_in]. cbn in Hlen. lia. }
  exists ([EvConnRecv; EvSockSend chunk] ++ evs). split.
  - rewrite Ht. cbn [w_trace]. by rewrite <- !app_assoc.
  - cbn [w_conn_in] in Hs. unfold sock_sends in *.
    rewrite omap_app, Hs. reflexivity.
Qed.

(** X17: a request that fills the buffer is followed upstream by what the
    client still sends: with a working upstream socket, [sendall] sends the
    request and then every pending chunk, in order, up to the first empty
    chunk or the first failing read, and returns. *)
Theorem sendall_forwards (_data : bytes) (w : World) :
  buffer_size <= N.of_nat (length _data) ->
  (forall n, env_sock_fault env n = None) ->
  let r := sendall env _data w in
  r.1 = Ok tt
  /\ sock_sends (new_events w r.2) = _data :: forwarded (w_conn_in w).
Proof.
  intros Hlen Hsock r. subst r. split; [by apply sendall_ok|].
  apply N.ltb_ge in Hlen.
  unfold sendall, sock_op, interact, fault, get_world. chain_cbn.
  rewrite Hsock. chain_cbn. rewrite Hlen. chain_cbn.
  match goal with
  | |- context [relay_loop env ?f ?v] =>
      destruct (relay_loop_forwards f Hsock v) as (evs & Ht & Hs);
      [cbn [w_conn_in]; lia|];
      destruct (relay_loop env f v) as [[b|e] w']
  end; chain_cbn; cbn [snd w_trace w_conn_in] in Ht, Hs;
    (erewrite new_events_app
       by (rewrite Ht; rewrite <- !app_assoc; reflexivity));
    unfold sock_sends in *; rewrite !omap_app, Hs; reflexivity.
Qed.

End SendAll.

(** X18: a [GET] request writes to the client at most once, and a request
    that returns has written exactly once, be it an empty body. *)
Theorem get_writes_client_once (rt : Runtime) (env : Env)
    (data webserver : bytes) (port : Z) (scheme url : bytes) (u sch host : str)
    (w : World) :
  decode rt url = Some u ->
  decode rt scheme = Some sch ->
  decode rt webserver = Some host ->
  let r := connect rt env data webserver port scheme (py "GET") url w in
  (length (sent (new_events w r.2)) <= 1)%nat
  /\ (forall b, r.1 = Ok b -> exists body, sent (new_events w r.2) = [body]).
Proof.
  intros Hu Hs Hh r.
  destruct (chain_path_total rt env (absolute_url u sch host port) (started w))
    as (p & w' & Hp).
  destruct (connect_GET_trace rt env data webserver port scheme url u sch host
              w _ _ Hu Hs Hh Hp) as (Hrun & _ & Hsent).
  fold r in Hrun, Hsent. rewrite Hsent, Hrun.
  split; [destruct p; cbn; lia|].
  intros b Hb. destruct p; cbn [finish raise fst] in Hb; try discriminate Hb;
    cbn [path_sent]; eauto.
Qed.

Section Backfill.

Variable rt : Runtime.
Variable env : Env.

(** A write to the cache that goes through stores the url, the decoded text
    and the clock reading under the id of the url. *)
Lemma push_cache_success (url : str) (b data : bytes) (text : str) (w : World) :
  utf8_encode url = Some b ->
  decode rt data = Some text ->
  env_es_fault env (w_tick w) = None ->
  let r := push_cache_to_elasticsearch rt env url data w in
  r.1 = Ok tt
  /\ w_tick r.2 = S (w_tick w)
  /\ w_docs r.2
     = <[sha256_hexdigest rt b :=
           {| doc_url := url; doc_content := text;
              doc_timestamp := env_now env (w_tick w) |}]> (w_docs w).
Proof.
  intros Hb Hd Hf r. subst r. run_code. rewrite Hb. chain_cbn.
  rewrite Hd. chain_cbn. rewrite Hf. chain_cbn. done.
Qed.

(** What a write to the cache can do to the store: nothing, or the one
    entry of its url. *)
Lemma push_cache_docs (url : str) (data : bytes) (w : World) :
  let r := push_cache_to_elasticsearch rt env url data w in
  w_docs r.2 = w_docs w
  \/ exists b text,
      utf8_encode url = Some b /\ decode rt data = Some text
      /\ w_docs r.2
         = <[sha256_hexdigest rt b :=
               {| doc_url := url; doc_content := text;
                  doc_timestamp := env_now env (w_tick w) |}]> (w_docs w).
Proof.
  intros r. subst r. run_code.
  destruct (utf8_encode url) as [b|]; chain_cbn; [|by left].
  destruct (decode rt data) as [text|]; chain_cbn; [|by left].
  destruct (env_es_fault env (w_tick w)); chain_cbn; [by left|].
  right. eauto.
Qed.

(** X19: writing the same url and content twice leaves one document: the
    second write replaces the first, with the same text and the later clock
    reading, and adds no entry. *)
Theorem push_cache_twice (url : str) (b data : bytes) (text : str) (w : World) :
  utf8_encode url = Some b ->
  decode rt data = Some text ->
  env_es_fault env (w_tick w) = None ->
  env_es_fault env (S (w_tick w)) = None ->
  let w1 := (push_cache_to_elasticsearch rt env url data w).2 in
  let w2 := (push_cache_to_elasticsearch rt env url data w1).2 in
  w_docs w2
  = <[sha256_hexdigest rt b :=
        {| doc_url := url; doc_content := text;
           doc_timestamp := env_now env (S (w_tick w)) |}]> (w_docs w)
  /\ dom (w_docs w2) = dom (w_docs w1).
Proof.
  intros Hb Hd H0 H1 w1 w2.
  destruct (push_cache_success url b data text w Hb Hd H0) as (_ & Ht1 & Hd1).
  fold w1 in Ht1, Hd1.
  destruct (push_cache_success url b data text w1 Hb Hd) as (_ & _ & Hd2).
  { by rewrite Ht1. }
  fold w2 in Hd2. rewrite Hd2, Hd1, Ht1, insert_insert_eq.
  split; [reflexivity|]. rewrite !dom_insert_L. set_solver.
Qed.

(** The store after a path of the chain. *)
Lemma chain_path_docs (target : str) (w : World) (p : path) (w' : World) :
  chain_path rt env target w p w' ->
  w_docs w' = w_docs w
  \/ exists b body text ts,
      p = OriginHit body
      /\ utf8_encode target = Some b /\ decode rt body = Some text
      /\ w_docs w'
         = <[sha256_hexdigest rt b :=
               {| doc_url := target; doc_content := text;
                  doc_timestamp := ts |}]> (w_docs w).
Proof.
  destruct 1; unfold cache_miss, archive_miss, origin_miss, serp_miss in *;
    repeat match goal with
      | H : exists _, _ |- _ => destruct H
      | H : _ /\ _ |- _ => destruct H
      end;
    repeat match goal with
      | H : fetch_cache_from_elasticsearch _ _ _ _ = _ |- _ =>
          apply (keeps_run _ _ _ _ (fetch_cache_keeps rt env _)) in H
      | H : fetch_cache_from_internet_archive _ _ _ = _ |- _ =>
          apply (keeps_run _ _ _ _ (fetch_archive_keeps env _)) in H
      | H : fetch_origin_server _ _ _ _ = _ |- _ =>
          apply (keeps_run _ _ _ _ (fetch_origin_keeps rt env _)) in H
      | H : query_to_serp _ _ _ _ = _ |- _ =>
          apply (keeps_run _ _ _ _ (query_serp_keeps rt env _)) in H
      | H : query_to_llm _ _ _ _ = _ |- _ =>
          apply (keeps_run _ _ _ _ (query_llm_keeps rt env _)) in H
      end;
    rewrite ?info_docs in *;
    try (left; congruence).
  match goal with
  | H : push_cache_to_elasticsearch _ _ ?t ?c ?v = (_, ?v') |- _ =>
      destruct (push_cache_docs t c v) as [Hp|(b & text & Hb & Hd & Hp)];
      rewrite H in Hp; cbn [snd] in Hp
  end.
  - left. congruence.
  - right. exists b, c, text, (env_now env (w_tick w3)).
    repeat split; try done. rewrite Hp. congruence.
Qed.

(** X20: a [GET] request leaves the store as it was, unless it ends with an
    origin answer whose body decodes: then the one entry of the requested url
    is written, with the decoded body, and that body is what the client
    receives.  Nothing is deleted and no other entry is changed. *)
Theorem get_store_change (data webserver : bytes) (port : Z)
    (scheme url : bytes) (u sch host : str) (w : World) :
  decode rt url = Some u ->
  decode rt scheme = Some sch ->
  decode rt webserver = Some host ->
  let target := absolute_url u sch host port in
  let r := connect rt env data webserver port scheme (py "GET") url w in
  w_docs r.2 = w_docs w
  \/ exists b body text ts,
      utf8_encode target = Some b /\ decode rt body = Some text
      /\ sent (new_events w r.2) = [body]
      /\ w_docs r.2
         = <[sha256_hexdigest rt b :=
               {| doc_url := target; doc_content := text;
                  doc_timestamp := ts |}]> (w_docs w).
Proof.
  intros Hu Hs Hh target r.
  destruct (chain_path_total rt env target (started w)) as (p & w' & Hp).
  destruct (connect_GET_trace rt env data webserver port scheme url u sch host
              w _ _ Hu Hs Hh Hp) as (Hrun & _ & Hsent).
  fold r in Hrun, Hsent.
  assert (w_docs r.2 = w_docs w') as Hd.
  { rewrite Hrun. destruct p; cbn [finish raise snd]; try reflexivity;
      match goal with
      | |- context [bind (conn_send env ?b) ?k ?v] =>
          pose proof (conn_send_keeps env b v) as Hk; unfold bind;
          destruct (conn_send env b v) as [[[]|?] ?]; exact (eq_sym Hk)
      end. }
  destruct (chain_path_docs _ _ _ _ Hp)
    as [Hsame|(b & body & text & ts & -> & Hb & Hdec & Hins)].
  - left. by rewrite Hd, Hsame.
  - right. exists b, body, text, ts. by rewrite Hd, Hins, Hsent.
Qed.

(** X21: back-fill makes the next request a cache hit.  After a [GET]
    request that ended with an origin answer 200 whose body was written to
    the cache, a [GET] request for the same url calls the cache lookup and
    nothing else, and the client receives the same body, provided the store
    answers and the text encodes back to the body. *)
Theorem backfill_then_cache_hit (data webserver : bytes) (port : Z)
    (scheme url : bytes) (u sch host : str)
    (w w1 w2 w3 w5 : World) (B : bytes) (text : str) :
  decode rt url = Some u ->
  decode rt scheme = Some sch ->
  decode rt webserver = Some host ->
  let target := absolute_url u sch host port in
  let put := push_cache_to_elasticsearch rt env target B w3 in
  cache_miss rt env target (started w) w1 ->
  archive_miss env target w1 w2 ->
  fetch_origin_server rt env target w2 = (Ok (200%Z, B), w3) ->
  decode rt B = Some text ->
  encode rt text = Some B ->
  env_es_fault env (w_tick w3) = None ->
  conn_send env B put.2 = (Ok tt, w5) ->
  env_es_fault env (w_tick w5) = None ->
  connect rt env data webserver port scheme (py "GET") url w = (Ok true, w5)
  /\ let again := connect rt env data webserver port scheme (py "GET") url w5 in
     calls (new_events w5 again.2) = [(FnFetchCache, [target])]
     /\ sent (new_events w5 again.2) = [B].
Proof.
  intros Hu Hs Hh target put M1 M2 H3 Hdec Henc Hf Hsend Hf5.
  assert (exists b, utf8_encode target = Some b) as [b Hb].
  { destruct M1 as (s & c & H1 & _). eapply fetch_cache_returns, H1. }
  destruct (push_cache_success target b B text w3 Hb Hdec Hf)
    as (Hok & _ & Hdocs).
  fold put in Hok, Hdocs.
  assert (push_cache_to_elasticsearch rt env target B w3 = (Ok tt, put.2)) as H4.
  { fold put. rewrite <- Hok. by destruct put. }
  pose proof (path_origin_hit rt env target _ _ _ _ _ _ M1 M2 H3 H4) as Hp.
  destruct (connect_GET_trace rt env data webserver port scheme url u sch host
              w _ _ Hu Hs Hh Hp) as (Hrun & _ & _).
  cbn [finish] in Hrun. rewrite (send_then_ret _ _ _ _ _ Hsend) in Hrun.
  split; [exact Hrun|]. intros again.
  assert (w_docs w5 !! sha256_hexdigest rt b
          = Some {| doc_url := target; doc_content := text;
                    doc_timestamp := env_now env (w_tick w3) |}) as Hdoc.
  { rewrite (keeps_run _ _ _ _ (conn_send_keeps env _) Hsend), Hdocs.
    apply lookup_insert_eq. }
  pose proof (fetch_cache_lookup rt env target b
                (info "Trying get data from Elasticsearch..." (started w5))
                _ Hb Hf5 Hdoc) as Hhit.
  cbn [doc_content] in Hhit. rewrite Henc in Hhit.
  destruct (fetch_cache_from_elasticsearch rt env target
              (info "Trying get data from Elasticsearch..." (started w5)))
    as [r1 w1'] eqn:H1. cbn [fst] in Hhit. subst r1.
  pose proof (path_cache_hit rt env target _ _ _ H1) as Hp'.
  destruct (connect_GET_trace rt env data webserver port scheme url u sch host
              w5 _ _ Hu Hs Hh Hp') as (_ & Hc & Hsent).
  split; assumption.
Qed.

End Backfill.

(** * The further properties on concrete runs *)

Lemma fetch_cache_outcome_demo :
  let r := fetch_cache_from_elasticsearch Demo.rt Demo.origin_up Demo.target
             Demo.w_cached in
  r.1 = Ok (200%Z, py "cached")
  /\ length (error_logs (new_events Demo.w_cached r.2)) = 0%nat.
Proof.
  apply (fetch_cache_outcome Demo.rt Demo.origin_up Demo.target Demo.target
           Demo.w_cached).
  reflexivity.
Defined.

Lemma fetchers_return_under_total_encoding_demo :
  (exists r, (fetch_origin_server Samples.lenient Demo.archive_unreachable
                Demo.target Demo.w0).1 = Ok r)
  /\ (exists r, (query_to_serp Samples.lenient Demo.archive_unreachable
                   Demo.target Demo.w0).1 = Ok r)
  /\ (exists r, (query_to_llm Samples.lenient Demo.archive_unreachable
                   Demo.target Demo.w0).1 = Ok r).
Proof.
  apply (fetchers_return_under_total_encoding Samples.lenient
           Demo.archive_unreachable Demo.target Demo.w0).
  intros s. vm_compute. eauto.
Defined.

Lemma query_to_llm_undecodable_demo :
  let r := query_to_llm Samples.strict Demo.summarizer_down Samples.undecodable
             Demo.w0 in
  requests (new_events Demo.w0 r.2) = []
  /\ r.1 = Ok (502%Z, py "Error querying ChatGPT API: codec error").
Proof.
  apply (query_to_llm_undecodable Samples.strict Demo.summarizer_down
           Samples.undecodable Demo.w0).
  reflexivity.
Defined.

Lemma archive_unarchived_is_404_demo :
  let r := fetch_cache_from_internet_archive Samples.unarchived Demo.target
             Demo.w0 in
  r.1 = Ok (404%Z, [])
  /\ requests (new_events Demo.w0 r.2) = [HttpGet (wayback_api_url Demo.target)].
Proof.
  apply (archive_unarchived_is_404 Samples.unarchived Demo.target Demo.w0
           Samples.unavailable [(py "archived_snapshots", JObj [])] []);
    reflexivity.
Defined.

Lemma archive_snapshot_fetched_demo :
  let r := fetch_cache_from_internet_archive Samples.archived Demo.target
             Demo.w0 in
  r.1 = Ok (200%Z, py "<old>")
  /\ requests (new_events Demo.w0 r.2)
     = [HttpGet (wayback_api_url Demo.target); HttpGet Samples.snapshot_url].
Proof.
  apply (archive_snapshot_fetched Samples.archived Demo.target Demo.w0
           Samples.available
           [(py "archived_snapshots",
             JObj [(py "closest", JObj [(py "url", JStr Samples.snapshot_url)])])]
           [(py "closest", JObj [(py "url", JStr Samples.snapshot_url)])]
           [(py "url", JStr Samples.snapshot_url)]
           Samples.snapshot_url); try reflexivity.
  vm_compute. discriminate.
Defined.

Lemma archive_malformed_is_502_demo :
  let r := fetch_cache_from_internet_archive Samples.archive_garbled
             Demo.target Demo.w0 in
  r.1 = Ok (502%Z, [])
  /\ requests (new_events Demo.w0 r.2) = [HttpGet (wayback_api_url Demo.target)].
Proof.
  apply (archive_malformed_is_502 Samples.archive_garbled Demo.target Demo.w0
           Samples.garbled).
  - reflexivity.
  - reflexivity.
  - exact I.
Defined.

Lemma archive_hit_is_a_snapshot_demo :
  exists u page,
    requests (new_events Demo.w0
                (fetch_cache_from_internet_archive Samples.archived
                   Demo.target Demo.w0).2)
    = [HttpGet (wayback_api_url Demo.target); HttpGet u]
    /\ env_http Samples.archived 1 (HttpGet u) = inr page
    /\ status_code page = 200%Z
    /\ content page = py "<old>".
Proof.
  apply (archive_hit_is_a_snapshot Samples.archived Demo.target Demo.w0
           (py "<old>")).
  reflexivity.
Defined.

Lemma connect_undecodable_field_demo :
  let r := connect Samples.strict Demo.origin_up [] Demo.host 80 Demo.scheme
             (py "GET") (py "/caf" ++ [233]) Demo.w0 in
  r.1 = Raise UnicodeError
  /\ new_events Demo.w0 r.2 = [EvLogInfo (py "[*] Connecting... Connecting...")].
Proof.
  apply (connect_undecodable_field Samples.strict Demo.origin_up [] Demo.host
           80 Demo.scheme (py "GET") (py "/caf" ++ [233]) Demo.w0).
  left. reflexivity.
Defined.

Lemma relay_never_answers_demo :
  let r := connect Demo.rt Demo.origin_up (py "POST /page HTTP/1.1") Demo.host
             80 Demo.scheme (py "POST") Demo.page Demo.w0 in
  forallb relay_may_emit (new_events Demo.w0 r.2) = true
  /\ sent (new_events Demo.w0 r.2) = []
  /\ calls (new_events Demo.w0 r.2) = []
  /\ requests (new_events Demo.w0 r.2) = []
  /\ w_docs r.2 = w_docs Demo.w0.
Proof.
  apply (relay_never_answers Demo.rt Demo.origin_up (py "POST /page HTTP/1.1")
           Demo.host 80 Demo.scheme (py "POST") Demo.page Demo.w0).
  vm_compute. discriminate.
Defined.

Lemma sendall_forwards_demo :
  let r := sendall Demo.origin_up Samples.big_request Samples.w_pending in
  r.1 = Ok tt
  /\ sock_sends (new_events Samples.w_pending r.2)
     = [Samples.big_request; py "more"; py "and more"].
Proof.
  apply (sendall_forwards Demo.origin_up Samples.big_request Samples.w_pending).
  - vm_compute. discriminate.
  - reflexivity.
Defined.

Lemma get_writes_client_once_demo :
  let r := connect Demo.rt Demo.all_down [] Demo.host 80 Demo.scheme (py "GET")
             Demo.page Demo.w0 in
  (length (sent (new_events Demo.w0 r.2)) <= 1)%nat
  /\ (forall b, r.1 = Ok b -> exists body, sent (new_events Demo.w0 r.2) = [body]).
Proof.
  apply (get_writes_client_once Demo.rt Demo.all_down [] Demo.host 80
           Demo.scheme Demo.page Demo.page Demo.scheme Demo.host Demo.w0);
    reflexivity.
Defined.

Lemma push_cache_twice_demo :
  let w1 := (push_cache_to_elasticsearch Demo.rt Demo.origin_up Demo.target
               (py "<html>") Demo.w0).2 in
  let w2 := (push_cache_to_elasticsearch Demo.rt Demo.origin_up Demo.target
               (py "<html>") w1).2 in
  w_docs w2
  = <[Demo.target :=
        {| doc_url := Demo.target; doc_content := py "<html>";
           doc_timestamp := 1%Z |}]> (w_docs Demo.w0)
  /\ dom (w_docs w2) = dom (w_docs w1).
Proof.
  apply (push_cache_twice Demo.rt Demo.origin_up Demo.target Demo.target
           (py "<html>") (py "<html>") Demo.w0); reflexivity.
Defined.

Lemma get_store_change_demo :
  let r := connect Demo.rt Demo.origin_up [] Demo.host 80 Demo.scheme (py "GET")
             Demo.page Demo.w0 in
  w_docs r.2 = w_docs Demo.w0
  \/ exists b body text ts,
      utf8_encode Demo.target = Some b /\ decode Demo.rt body = Some text
      /\ sent (new_events Demo.w0 r.2) = [body]
      /\ w_docs r.2
         = <[sha256_hexdigest Demo.rt b :=
               {| doc_url := Demo.target; doc_content := text;
                  doc_timestamp := ts |}]> (w_docs Demo.w0).
Proof.
  apply (get_store_change Demo.rt Demo.origin_up [] Demo.host 80 Demo.scheme
           Demo.page Demo.page Demo.scheme Demo.host Demo.w0); reflexivity.
Defined.

Lemma backfill_then_cache_hit_demo :
  exists w5,
    connect Demo.rt Demo.origin_up [] Demo.host 80 Demo.scheme (py "GET")
      Demo.page Demo.w0 = (Ok true, w5)
    /\ let again :=
         connect Demo.rt Demo.origin_up [] Demo.host 80 Demo.scheme (py "GET")
           Demo.page w5 in
       calls (new_events w5 again.2) = [(FnFetchCache, [Demo.target])]
       /\ sent (new_events w5 again.2) = [py "<html>"].
Proof.
  eexists.
  eapply (backfill_then_cache_hit Demo.rt Demo.origin_up [] Demo.host 80
            Demo.scheme Demo.page Demo.page Demo.scheme Demo.host
            Demo.w0 _ _ _ _ (py "<html>") (py "<html>")
            eq_refl eq_refl eq_refl).
  - run_miss.
  - run_miss.
  - run_source.
  - reflexivity.
  - reflexivity.
  - reflexivity.
  - run_source.
  - reflexivity.
Defined.

Lemma query_to_llm_200_demo :
  (query_to_llm Demo.rt Samples.summarizer_up (py "S") Demo.w0).1
  = Ok (200%Z, py "the user looked for S").
Proof.
  apply (proj2 (query_to_llm_200_iff Demo.rt Samples.summarizer_up (py "S")
                  Demo.w0 (py "the user looked for S"))).
  exists (py "S"), Samples.completion.
  eexists _, _. repeat split; reflexivity.
Defined.

Lemma archive_raises_demo :
  (fetch_cache_from_internet_archive Demo.archive_unreachable Demo.target
     Demo.w0).1 = Raise (TransportError (py "Connection refused")).
Proof.
  apply (proj2 (archive_raises_iff Demo.archive_unreachable Demo.target Demo.w0
                  (TransportError (py "Connection refused")))).
  reflexivity.
Defined.

(** * The serial connector *)

Module SerialProps.
Import SerialPlugin.
Local Open Scope serial_scope.

Ltac serial_cbn :=
  unfold serial_open, serial_io, serial_read, serial_in_waiting, serial_close,
    conn_send, read_port_path, bind, ret, raise, emit, interact, get_frame,
    set_frame, get_is_open, set_is_open, try_finally, try_except_serial, fault;
  cbn [fst snd negb andb w_tick w_is_open w_frame w_trace connected ser
         port_path is_serial].

Ltac serial_cases := repeat (case_inner; serial_cbn).

Lemma new_trace_list {A} (old t evs : list A) :
  t = old ++ evs -> drop (length old) t = evs.
Proof. intros ->. apply drop_app_length. Qed.

Ltac added_rw :=
  unfold added; cbn [w_trace];
  erewrite new_trace_list by (rewrite <- ?app_assoc; reflexivity).





Section Props.


Variable env : Env.
Variables (data : bytes) (port : Z) (url : bytes).

(** X23: however [connect] ends, by returning or by raising, it leaves no
    port open. *)
Theorem serial_port_never_left_open (w : World) :
  idle w -> w_is_open (connect env data port url w).2 = false.
Proof.
  unfold idle. intros Hidle. unfold connect. serial_cbn.
  serial_cases; try reflexivity; try exact Hidle; congruence.
Qed.

(** X24: when the port cannot be opened, [connect] returns [False]: the
    failure is logged, nothing is written to a port and nothing is sent to
    the client.  The path that was tried is the url without its slashes. *)
Theorem serial_open_failure (w : World) (text : str) (e : Exn) :
  decode env url = Some text ->
  open_fault env (w_tick w) = Some e ->
  is_serial e = true ->
  let r := connect env data port url w in
  r.1 = Return false
  /\ opened (added w r.2) = [remove_slashes text]
  /\ written (added w r.2) = []
  /\ client_data (added w r.2) = [].
Proof.
  intros Hd Ho He r. subst r. unfold connect. serial_cbn.
  rewrite Hd. serial_cbn. rewrite Ho. serial_cbn. rewrite He. serial_cbn.
  repeat split; added_rw; reflexivity.
Qed.


(** X26: a url that does not decode makes [connect] raise, and what it
    raises is the unbound local of the [finally] block, not the decoding
    error; no port is opened. *)
Theorem serial_undecodable_url (w : World) :
  decode env url = None ->
  let r := connect env data port url w in
  r.1 = Raised (UnboundLocalError (py "port_path"))
  /\ added w r.2 = [].
Proof.
  intros Hd r. subst r. unfold connect. serial_cbn. rewrite Hd. serial_cbn.
  split; [reflexivity|]. unfold added. cbn [w_trace]. apply drop_all.
Qed.

(** X27: with a port that opens and works and a client that accepts, one
    exchange takes place, in this order: the port is opened, the payload of
    the request is written and flushed, what the port has waiting is read and
    sent to the client, the port is closed; [connect] returns [True]. *)
Theorem serial_exchange (w : World) (text : str) :
  decode env url = Some text ->
  open_fault env (w_tick w) = None ->
  (forall n, io_fault env n = None) ->
  (forall n, send_fault env n = None) ->
  let t := w_tick w in
  let reply := take (N.to_nat (in_waiting env (3 + t))) (incoming env (4 + t)) in
  let r := connect env data port url w in
  r.1 = Return true
  /\ added w r.2
     = [EvOpen (remove_slashes text) 9600;
        EvDebug (py "Connected to " ++ remove_slashes text
                   ++ py " at 9600 baudrate");
        EvWrite (slice_from (find blank_line data + 4) data);
        EvFlush; EvSleep; EvInWaiting;
        EvRead (in_waiting env (3 + t));
        EvSend reply;
        EvDebug (py "Data sent to " ++ remove_slashes text ++ py ": "
                   ++ bytes_repr env data);
        EvClose;
        EvDebug (py "Serial port " ++ remove_slashes text ++ py " closed")].
Proof.
  intros Hd Ho Hio Hsend t reply r. subst t reply r. unfold connect. serial_cbn.
  rewrite Hd. serial_cbn. rewrite Ho. serial_cbn.
  rewrite !Hio. serial_cbn. rewrite Hsend. serial_cbn.
  split; [reflexivity|]. added_rw. reflexivity.
Qed.

End Props.
Lemma serial_port_never_left_open_demo :
  w_is_open (connect (echo None (fun _ => None)) request 0 (py "/COM3") w0).2
  = false.
Proof.
  apply (serial_port_never_left_open (echo None (fun _ => None)) request 0
           (py "/COM3") w0).
  reflexivity.
Defined.


Lemma serial_open_failure_demo :
  let r := connect (echo (Some (SerialException (py "could not open port")))
                      (fun _ => None)) request 0 (py "/COM3") w0 in
  r.1 = Return false
  /\ opened (added w0 r.2) = [py "COM3"]
  /\ written (added w0 r.2) = []
  /\ client_data (added w0 r.2) = [].
Proof.
  apply (serial_open_failure
           (echo (Some (SerialException (py "could not open port")))
              (fun _ => None)) request 0 (py "/COM3") w0 (py "/COM3")
           (SerialException (py "could not open port"))); reflexivity.
Defined.


Lemma serial_undecodable_url_demo :
  let r := connect (echo None (fun _ => None)) request 0 (py "/COM" ++ [233])
             w0 in
  r.1 = Raised (UnboundLocalError (py "port_path")) /\ added w0 r.2 = [].
Proof.
  apply (serial_undecodable_url (echo None (fun _ => None)) request 0
           (py "/COM" ++ [233]) w0).
  reflexivity.
Defined.

Lemma serial_exchange_demo :
  let r := connect (echo None (fun _ => None)) request 0 (py "/COM3") w0 in
  r.1 = Return true
  /\ added w0 r.2
     = [EvOpen (py "COM3") 9600;
        EvDebug (py "Connected to COM3 at 9600 baudrate");
        EvWrite (py "ping");
        EvFlush; EvSleep; EvInWaiting; EvRead 4;
        EvSend (py "pong");
        EvDebug (py "Data sent to COM3: " ++ request);
        EvClose;
        EvDebug (py "Serial port COM3 closed")].
Proof.
  apply (serial_exchange (echo None (fun _ => None)) request 0 (py "/COM3") w0
           (py "/COM3")); reflexivity.
Defined.

End SerialProps.

(** * The container plugin *)

Module ContainerProps.
Import ContainerPlugin.
Local Open Scope container_scope.

Ltac container_cbn :=
  unfold container_create, container_start, container_run, container_stop,
    container_pause, container_unpause, container_restart, container_kill,
    container_remove, docker, subscript, bind, ret, raise, emit, interact,
    fault;
  cbn [fst snd w_tick w_trace].

Ltac container_added :=
  unfold added; cbn [w_trace];
  erewrite SerialProps.new_trace_list by (rewrite <- ?app_assoc; reflexivity).

Section Props.

Variable env : Env.

(** X28: [container_create] and [container_kill] are placeholders: whatever
    the parameters and whatever the state of the daemon, they log, call the
    docker client not once, and return [True]. *)
Theorem container_stubs_touch_nothing (params : Json) (w : World) :
  let created := container_create params w in
  let killed := container_kill params w in
  created.1 = Return true /\ docker_calls (added w created.2) = []
  /\ killed.1 = Return true /\ docker_calls (added w killed.2) = [].
Proof.
  cbv zeta. container_cbn. repeat split; container_added; reflexivity.
Qed.

(** X29: the six methods that act on a container all look it up by
    [params["name"]] first.  Without that key they raise [KeyError] and the
    daemon is not contacted; when the lookup fails the operation is not
    attempted and the failure is raised; when the operation fails it is
    raised; otherwise the container is looked up, the operation applied, and
    [True] returned. *)
Theorem container_method_outcome (op : Op) (m : list (str * Json)) (w : World) :
  let r := method_of env op (JObj m) w in
  match assoc (py "name") m with
  | None => r.1 = Raised (KeyError (py "name")) /\ added w r.2 = []
  | Some name =>
      match docker_fault env (w_tick w), docker_fault env (S (w_tick w)) with
      | Some e, _ => r.1 = Raised e /\ docker_calls (added w r.2) = [EvGet name]
      | None, Some e =>
          r.1 = Raised e /\ docker_calls (added w r.2) = [EvGet name; EvOp op]
      | None, None =>
          r.1 = Return true
          /\ docker_calls (added w r.2) = [EvGet name; EvOp op]
      end
  end.
Proof.
  intros r. subst r.
  destruct op; cbn [method_of]; container_cbn;
    destruct (assoc (py "name") m) as [name|]; container_cbn;
    try (split; [reflexivity | unfold added; cbn [w_trace]; apply drop_all]);
    destruct (docker_fault env (w_tick w)); container_cbn;
    try (split; [reflexivity | container_added; reflexivity]);
    destruct (docker_fault env (S (w_tick w))); container_cbn;
    split; try reflexivity; container_added; reflexivity.
Qed.

(** X30: [container_run] reads its parameters before it contacts the daemon:
    the first of [devices], [image], [name], [environment], [volumes] that is
    missing is raised as [KeyError], and nothing is run; with all five there,
    the container is run detached, then its logs are read, and a failure of
    either call is raised. *)
Theorem container_run_outcome (m : list (str * Json)) (w : World) :
  let r := container_run env (JObj m) w in
  match first_missing run_keys m with
  | Some k => r.1 = Raised (KeyError k) /\ added w r.2 = []
  | None =>
      exists image devices name volumes environment,
        assoc (py "image") m = Some image
        /\ assoc (py "devices") m = Some devices
        /\ assoc (py "name") m = Some name
        /\ assoc (py "volumes") m = Some volumes
        /\ assoc (py "environment") m = Some environment
        /\ let run := EvRun image devices name volumes environment true in
           match docker_fault env (w_tick w), docker_fault env (S (w_tick w))
           with
           | Some e, _ => r.1 = Raised e /\ docker_calls (added w r.2) = [run]
           | None, Some e =>
               r.1 = Raised e /\ docker_calls (added w r.2) = [run; EvLogs]
           | None, None =>
               r.1 = Return true
               /\ docker_calls (added w r.2) = [run; EvLogs]
           end
  end.
Proof.
  intros r. subst r. unfold run_keys. cbn [first_missing]. container_cbn.
  destruct (assoc (py "devices") m) as [devices|] eqn:Hd; container_cbn;
    [|split; [reflexivity | unfold added; cbn [w_trace]; apply drop_all]].
  destruct (assoc (py "image") m) as [image|] eqn:Hi; container_cbn;
    [|split; [reflexivity | unfold added; cbn [w_trace]; apply drop_all]].
  destruct (assoc (py "name") m) as [name|] eqn:Hn; container_cbn;
    [|split; [reflexivity | unfold added; cbn [w_trace]; apply drop_all]].
  destruct (assoc (py "environment") m) as [environment|] eqn:He; container_cbn;
    [|split; [reflexivity | unfold added; cbn [w_trace]; apply drop_all]].
  destruct (assoc (py "volumes") m) as [volumes|] eqn:Hv; container_cbn;
    [|split; [reflexivity | unfold added; cbn [w_trace]; apply drop_all]].
  exists image, devices, name, volumes, environment.
  repeat (split; [reflexivity|]). cbv zeta.
  destruct (docker_fault env (w_tick w)); container_cbn;
    [split; [reflexivity | container_added; reflexivity]|].
  destruct (docker_fault env (S (w_tick w))); container_cbn;
    split; try reflexivity; container_added; reflexivity.
Qed.

End Props.
End ContainerProps.

